(** * Phoenix RFP Xcelerator: pricing store, RFP store, workflow page and
      the bid pipeline

    The front end (TypeScript/React) keeps two in-memory stores, the pricing
    rows of [PricingContext] and the RFP records of [RFPContext], and a
    workflow page that drives the step orchestrator of the Python back end
    over HTTP.  The stores and the page are embedded from their sources; the
    back end (requirement parser, matching engine, pricing engine, step
    orchestrator) is not part of the front-end sources and is modelled from
    the specification, each such definition saying so.

    JavaScript numbers are IEEE 754 binary64 values; they are embedded as
    the kernel's primitive floats, whose [+] and [*] are the same correctly
    rounded operations. *)

From Stdlib Require Import PrimFloat ZArith QArith List String Ascii Bool.
From Stdlib Require Import Permutation Sorted Lia Lqa.
From Stdlib Require OrderedTypeEx.
From Stdlib Require Floats Uint63.
From stdpp Require Import base gmap strings list sorting.
Import ListNotations.

#[local] Set Warnings "-inexact-float,-register-all".
Local Open Scope string_scope.
Local Open Scope list_scope.

(** ** Numbers

    The arithmetic the stores use on amounts: the literal [0], [+] and [*].
    The code runs it on binary64. *)

Class Arith (num : Type) : Type := {
  zero : num;
  add : num -> num -> num;
  mul : num -> num -> num
}.

#[export] Instance binary64 : Arith float := {|
  zero := 0%float;
  add := PrimFloat.add;
  mul := PrimFloat.mul
|}.

(** The binary64 value of the whole number [z], for [0 <= z < 2^53]: the
    JavaScript number [z], which binary64 holds exactly. *)
Definition whole (z : Z) : float := PrimFloat.of_uint63 (Uint63.of_Z z).

(** The whole number a binary64 value stands for, read off its sign,
    mantissa and exponent: a fraction is cut off, and a negative value, an
    infinity and NaN give [0]. *)
Definition units (x : float) : Z :=
  match FloatOps.Prim2SF x with
  | SpecFloat.S754_finite false m e => Z.shiftl (Zpos m) e
  | _ => 0%Z
  end.

(** A whole amount: one of the numbers 0, 1, ..., 2^53 - 1. *)
Definition whole_amount (x : float) : Prop :=
  (0 <= units x < 2 ^ 53)%Z /\ x = whole (units x).

(** The sign, mantissa and exponent of the binary64 value of a whole
    number, as IEEE 754 lays them out: the mantissa shifted up to 53 bits. *)
Module Binary64.

(** The number of binary digits of [n]. *)
Definition dig (n : positive) : Z := Zpos (SpecFloat.digits2_pos n).

(** [n * 2^k] *)
Definition shl (n : positive) (k : nat) : positive := Nat.iter k xO n.

Definition canon (n : positive) : SpecFloat.spec_float :=
  SpecFloat.S754_finite false (shl n (Z.to_nat (53 - dig n))) (dig n - 53).

Definition spec_of (z : Z) : SpecFloat.spec_float :=
  match z with
  | Zpos n => canon n
  | _ => SpecFloat.S754_zero false
  end.

End Binary64.

(** The running sum of a sequence, left to right from [0]: what
    [xs.reduce((sum, x) => sum + x, 0)] computes. *)
Definition running_sum {num : Type} `{Arith num} (xs : list num) : num :=
  fold_left add xs zero.

(** ** PricingContext (contexts/PricingContext.tsx) *)

Module ProductRow.
Record t (num : Type) : Type := mk {
  id : string;
  rfpId : string;
  oemSku : string;
  quantity : num;
  unitPrice : num
}.
Arguments mk {num}.
Arguments id {num}.
Arguments rfpId {num}.
Arguments oemSku {num}.
Arguments quantity {num}.
Arguments unitPrice {num}.
End ProductRow.

Module TestRow.
Record t (num : Type) : Type := mk {
  id : string;
  rfpId : string;
  testName : string;
  numberOfTests : num;
  pricePerTest : num
}.
Arguments mk {num}.
Arguments id {num}.
Arguments rfpId {num}.
Arguments testName {num}.
Arguments numberOfTests {num}.
Arguments pricePerTest {num}.
End TestRow.

Module PricingContext.
Section Provider.
Context {num : Type} `{Arith num}.

(** The two [useState] cells of [PricingProvider]. *)
Record State : Type := mkState {
  products : list (ProductRow.t num);
  tests : list (TestRow.t num)
}.

(** [useState<ProductRow[]>([])], [useState<TestRow[]>([])]. *)
Definition initial : State := {| products := []; tests := [] |}.

(** [addProduct]: [setProducts([...products, { ...product, id: now }])]
    where [now] is [Date.now().toString()]; the argument's own [id] is
    absent ([Omit<ProductRow, 'id'>]), so the row's other fields are taken
    from it and the id from the clock. *)
Definition addProduct (now : string) (product : ProductRow.t num) (st : State) : State :=
  {| products := products st ++
       [ProductRow.mk now (ProductRow.rfpId product) (ProductRow.oemSku product)
          (ProductRow.quantity product) (ProductRow.unitPrice product)];
     tests := tests st |}.

(** [addTest]: [setTests([...tests, { ...test, id: now }])]. *)
Definition addTest (now : string) (test : TestRow.t num) (st : State) : State :=
  {| products := products st;
     tests := tests st ++
       [TestRow.mk now (TestRow.rfpId test) (TestRow.testName test)
          (TestRow.numberOfTests test) (TestRow.pricePerTest test)] |}.

(** [products.filter(p => p.rfpId === rfpId)] *)
Definition getProductsByRFP (st : State) (rfpId : string) : list (ProductRow.t num) :=
  List.filter (fun p => String.eqb (ProductRow.rfpId p) rfpId) (products st).

(** [tests.filter(t => t.rfpId === rfpId)] *)
Definition getTestsByRFP (st : State) (rfpId : string) : list (TestRow.t num) :=
  List.filter (fun t => String.eqb (TestRow.rfpId t) rfpId) (tests st).

(** [getProductsByRFP(rfpId).reduce((sum, p) => sum + (p.quantity * p.unitPrice), 0)] *)
Definition getTotalMaterialCost (st : State) (rfpId : string) : num :=
  fold_left
    (fun sum p => add sum (mul (ProductRow.quantity p) (ProductRow.unitPrice p)))
    (getProductsByRFP st rfpId) zero.

(** [getTestsByRFP(rfpId).reduce((sum, t) => sum + (t.numberOfTests * t.pricePerTest), 0)] *)
Definition getTotalTestCost (st : State) (rfpId : string) : num :=
  fold_left
    (fun sum t => add sum (mul (TestRow.numberOfTests t) (TestRow.pricePerTest t)))
    (getTestsByRFP st rfpId) zero.

(** [getTotalMaterialCost(rfpId) + getTotalTestCost(rfpId)] *)
Definition getGrandTotal (st : State) (rfpId : string) : num :=
  add (getTotalMaterialCost st rfpId) (getTotalTestCost st rfpId).

(** The "Line Total" and "Test Total" cells of pages/Pricing.tsx:
    [prod.quantity * prod.unitPrice] and
    [test.numberOfTests * test.pricePerTest]. *)
Definition lineTotal (p : ProductRow.t num) : num :=
  mul (ProductRow.quantity p) (ProductRow.unitPrice p).

Definition testTotal (t : TestRow.t num) : num :=
  mul (TestRow.numberOfTests t) (TestRow.pricePerTest t).

End Provider.
Arguments State num : clear implicits.
End PricingContext.

(** The totals in exact whole-number arithmetic, the plain summation the
    specification asks for, to compare the binary64 totals of the store
    with. *)
Module ExactTotals.

Definition exact_sum {A : Type} (q u : A -> float) (rows : list A) : Z :=
  fold_right Z.add 0%Z (map (fun r => (units (q r) * units (u r))%Z) rows).

Definition materialCost (st : PricingContext.State float) (rfpId : string) : Z :=
  exact_sum ProductRow.quantity ProductRow.unitPrice
    (PricingContext.getProductsByRFP st rfpId).

Definition testCost (st : PricingContext.State float) (rfpId : string) : Z :=
  exact_sum TestRow.numberOfTests TestRow.pricePerTest
    (PricingContext.getTestsByRFP st rfpId).

Definition grandTotal (st : PricingContext.State float) (rfpId : string) : Z :=
  (materialCost st rfpId + testCost st rfpId)%Z.

End ExactTotals.

(** ** RFPContext (contexts/RFPContext.tsx) *)

Module LineItem.
Record t : Type := mk {
  id : string;
  description : string;
  quantity : float;
  unit : string
}.
End LineItem.

Module Requirement.
Record t : Type := mk {
  id : string;
  text : string
}.
End Requirement.

(** ['Open' | 'In Progress' | 'Submitted'] *)
Inductive RFPStatus : Type := Open | InProgress | Submitted.

Module RFP.
Record t : Type := mk {
  id : string;
  rfpId : string;
  title : string;
  client : string;
  dueDate : string;
  status : RFPStatus;
  lineItems : list LineItem.t;
  requirements : list Requirement.t;
  readyForTechnical : bool;
  readyForPricing : bool
}.
End RFP.

(** [Partial<RFP>]: every property of [RFP] may be absent. *)
Module PartialRFP.
Record t : Type := mk {
  id : option string;
  rfpId : option string;
  title : option string;
  client : option string;
  dueDate : option string;
  status : option RFPStatus;
  lineItems : option (list LineItem.t);
  requirements : option (list Requirement.t);
  readyForTechnical : option bool;
  readyForPricing : option bool
}.
Definition none : t := mk None None None None None None None None None None.
End PartialRFP.

Module RFPContext.

(** A property of the object spread [{ ...rfp, ...updates }]: the value of
    [updates] where it has the property, the one of [rfp] otherwise. *)
Definition spread_prop {A : Type} (base : A) (update : option A) : A :=
  match update with
  | Some v => v
  | None => base
  end.

(** [{ ...rfp, ...updates }] *)
Definition spread (rfp : RFP.t) (updates : PartialRFP.t) : RFP.t :=
  {| RFP.id := spread_prop (RFP.id rfp) (PartialRFP.id updates);
     RFP.rfpId := spread_prop (RFP.rfpId rfp) (PartialRFP.rfpId updates);
     RFP.title := spread_prop (RFP.title rfp) (PartialRFP.title updates);
     RFP.client := spread_prop (RFP.client rfp) (PartialRFP.client updates);
     RFP.dueDate := spread_prop (RFP.dueDate rfp) (PartialRFP.dueDate updates);
     RFP.status := spread_prop (RFP.status rfp) (PartialRFP.status updates);
     RFP.lineItems := spread_prop (RFP.lineItems rfp) (PartialRFP.lineItems updates);
     RFP.requirements :=
       spread_prop (RFP.requirements rfp) (PartialRFP.requirements updates);
     RFP.readyForTechnical :=
       spread_prop (RFP.readyForTechnical rfp) (PartialRFP.readyForTechnical updates);
     RFP.readyForPricing :=
       spread_prop (RFP.readyForPricing rfp) (PartialRFP.readyForPricing updates) |}.

(** The store is the [useState<RFP[]>([])] cell; every operation reads the
    current array [rfps] and, but for [getRFPById], hands [setRfps] the
    next one. *)
Definition initial : list RFP.t := [].

(** [addRFP]: the argument carries [id], [rfpId], [title], [client],
    [dueDate] and [status]; the other four properties are set here. *)
Definition addRFP (id rfpId title client dueDate : string) (status : RFPStatus)
    (rfps : list RFP.t) : list RFP.t :=
  rfps ++ [RFP.mk id rfpId title client dueDate status [] [] false false].

(** [rfps.map(rfp => rfp.id === id ? { ...rfp, ...updates } : rfp)] *)
Definition updateRFP (id : string) (updates : PartialRFP.t)
    (rfps : list RFP.t) : list RFP.t :=
  map (fun rfp => if String.eqb (RFP.id rfp) id then spread rfp updates else rfp) rfps.

(** [rfps.find(rfp => rfp.id === id)]; [undefined] is [None]. *)
Definition getRFPById (id : string) (rfps : list RFP.t) : option RFP.t :=
  List.find (fun rfp => String.eqb (RFP.id rfp) id) rfps.

(** [addLineItem]: the line item comes without [id]
    ([Omit<LineItem, 'id'>]); [now] is [Date.now().toString()]. *)
Definition addLineItem (now : string) (rfpId : string)
    (description : string) (quantity : float) (unit : string)
    (rfps : list RFP.t) : list RFP.t :=
  map (fun rfp =>
         if String.eqb (RFP.id rfp) rfpId
         then {| RFP.id := RFP.id rfp;
                 RFP.rfpId := RFP.rfpId rfp;
                 RFP.title := RFP.title rfp;
                 RFP.client := RFP.client rfp;
                 RFP.dueDate := RFP.dueDate rfp;
                 RFP.status := RFP.status rfp;
                 RFP.lineItems :=
                   RFP.lineItems rfp ++ [LineItem.mk now description quantity unit];
                 RFP.requirements := RFP.requirements rfp;
                 RFP.readyForTechnical := RFP.readyForTechnical rfp;
                 RFP.readyForPricing := RFP.readyForPricing rfp |}
         else rfp) rfps.

(** [addRequirement]: the requirement comes without [id]. *)
Definition addRequirement (now : string) (rfpId : string) (text : string)
    (rfps : list RFP.t) : list RFP.t :=
  map (fun rfp =>
         if String.eqb (RFP.id rfp) rfpId
         then {| RFP.id := RFP.id rfp;
                 RFP.rfpId := RFP.rfpId rfp;
                 RFP.title := RFP.title rfp;
                 RFP.client := RFP.client rfp;
                 RFP.dueDate := RFP.dueDate rfp;
                 RFP.status := RFP.status rfp;
                 RFP.lineItems := RFP.lineItems rfp;
                 RFP.requirements :=
                   RFP.requirements rfp ++ [Requirement.mk now text];
                 RFP.readyForTechnical := RFP.readyForTechnical rfp;
                 RFP.readyForPricing := RFP.readyForPricing rfp |}
         else rfp) rfps.

(** A call of [getRFPById] seen as a step of the provider: the value it
    returns and the store it leaves; the function calls no [setRfps]. *)
Definition getRFPById_call (id : string) (rfps : list RFP.t)
    : option RFP.t * list RFP.t :=
  (getRFPById id rfps, rfps).

End RFPContext.

(** ** RFPDetail (pages/RFPDetail.tsx) *)

Module RFPDetail.

(** What the page renders: the "RFP not found" card with its way back to
    the list, or the detail view of the record. *)
Inductive View : Type :=
| NotFound
| Detail (rfp : RFP.t).

(** [const rfp = getRFPById(id!); if (!rfp) { return <not found> } ...];
    a record is an object and so never falsy. *)
Definition render (id : string) (rfps : list RFP.t) : View :=
  match RFPContext.getRFPById id rfps with
  | None => NotFound
  | Some rfp => Detail rfp
  end.

End RFPDetail.

(** ** Workflow (pages/Workflow.tsx) *)

(** A JSON value, for the properties the page types as [any] and for what
    [JSON.stringify] makes of its records. *)
Inductive JSValue : Type :=
| JNull
| JBool (b : bool)
| JNumber (n : float)
| JString (s : string)
| JArray (items : list JSValue)
| JObject (props : list (string * JSValue)).

(** JavaScript truthiness: [null], [false], [0], [NaN] and the empty string
    are falsy, arrays and objects are truthy. *)
Definition truthy (v : JSValue) : bool :=
  match v with
  | JNull => false
  | JBool b => b
  | JNumber n => negb (PrimFloat.eqb n 0 || PrimFloat.is_nan n)
  | JString s => negb (String.eqb s EmptyString)
  | JArray _ => true
  | JObject _ => true
  end.

(** An optional property: absent ([undefined]) is falsy. *)
Definition truthy_opt (v : option JSValue) : bool :=
  match v with
  | Some x => truthy x
  | None => false
  end.

(** ['pending' | 'running' | 'completed' | 'error'] *)
Inductive StepStatus : Type := pending | running | completed | error.

Module WorkflowStep.
Record t : Type := mk {
  step_name : string;
  agent_name : string;
  status : StepStatus;
  output : option JSValue;
  summary : option string;
  error : option string
}.
End WorkflowStep.

Module WorkflowProgress.
Record t : Type := mk {
  workflow_id : string;
  current_step : float;
  total_steps : float;
  steps : list WorkflowStep.t;
  final_response : option JSValue
}.
End WorkflowProgress.

Module Workflow.



(** [v.key]: the property of an object, [undefined] ([None]) when it has
    none of that name. *)
Fixpoint assoc (key : string) (props : list (string * JSValue)) : option JSValue :=
  match props with
  | [] => None
  | (k, x) :: rest => if String.eqb k key then Some x else assoc key rest
  end.

(** [v.key] on any value but [null]: a number, a boolean, a string and an
    array have none of the properties the page reads. *)
Definition prop (key : string) (v : JSValue) : option JSValue :=
  match v with
  | JObject props => assoc key props
  | _ => None
  end.

(** The "Execute Next Step" button as rendered: whether it is disabled. *)
Record ExecuteButton : Type := mkButton { disabled : bool }.

(** The action card:
    [{!workflow.final_response && (<Button onClick={executeStep}
       disabled={isExecuting || workflow.current_step >= workflow.total_steps}>)}];
    [None] when the card is not rendered. *)
Definition actionCard (isExecuting : bool) (w : WorkflowProgress.t) : option ExecuteButton :=
  if negb (truthy_opt (WorkflowProgress.final_response w))
  then Some (mkButton
               (isExecuting ||
                PrimFloat.leb (WorkflowProgress.total_steps w)
                              (WorkflowProgress.current_step w)))
  else None.

(** Whether a click reaches [executeStep] and so the API: the button is
    rendered and not disabled. *)
Definition canExecute (isExecuting : bool) (w : WorkflowProgress.t) : bool :=
  match actionCard isExecuting w with
  | Some b => negb (disabled b)
  | None => false
  end.

End Workflow.

(** ** Workflow page on the object as received (pages/Workflow.tsx)

    [setWorkflow(data)] stores what [response.json()] gave, unchecked: the
    interface [WorkflowProgress] is erased at run time, and [workflow] is
    [null] or whatever value the API answered.  The render below reads
    that value property by property, as the JSX does. *)

Module WorkflowRender.
Import Workflow.

(** The icons of [getStatusIcon], the badges of [getStatusBadge], the
    border classes of a step's card and the icons of [getAgentIcon]. *)
Inductive Icon : Type := CheckCircle2 | Loader2 | AlertCircle | Clock.
Inductive Badge : Type := BadgeCompleted | BadgeRunning | BadgeError | BadgePending.
Inductive Border : Type := BorderBlue | BorderGreen | BorderRed | BorderGray.
Inductive AgentIcon : Type := Search | Package | Calculator | Settings | FileText.

(** [v === 'text'] *)
Definition is_text (v : option JSValue) (text : string) : bool :=
  match v with
  | Some (JString s) => String.eqb s text
  | _ => false
  end.

(** [switch (status) { case 'completed': ... case 'running': ...
    case 'error': ... default: ... }] *)
Definition getStatusIcon (status : option JSValue) : Icon :=
  if is_text status "completed" then CheckCircle2
  else if is_text status "running" then Loader2
  else if is_text status "error" then AlertCircle
  else Clock.

Definition getStatusBadge (status : option JSValue) : Badge :=
  if is_text status "completed" then BadgeCompleted
  else if is_text status "running" then BadgeRunning
  else if is_text status "error" then BadgeError
  else BadgePending.

(** [step.status === 'running' ? blue : step.status === 'completed' ? green
    : step.status === 'error' ? red : gray] *)
Definition border (status : option JSValue) : Border :=
  if is_text status "running" then BorderBlue
  else if is_text status "completed" then BorderGreen
  else if is_text status "error" then BorderRed
  else BorderGray.

Definition getAgentIcon (agentName : option JSValue) : AgentIcon :=
  if is_text agentName "Sales Agent" then Search
  else if is_text agentName "Technical Agent" then Package
  else if is_text agentName "Pricing Agent" then Calculator
  else if is_text agentName "Main Agent" then Settings
  else FileText.

(** [{v && (...)}]: the block is rendered, from [v], when [v] is truthy. *)
Definition shown (v : option JSValue) : option JSValue :=
  if truthy_opt v then v else None.

(** The card of one step. *)
Record StepCard : Type := mkStepCard {
  card_border : Border;
  card_icon : Icon;
  card_step_name : option JSValue;
  card_badge : Badge;
  card_agent_icon : AgentIcon;
  card_agent_name : option JSValue;
  card_summary : option JSValue;
  card_error : option JSValue;
  card_output : option JSValue
}.

(** The body of [workflow.steps.map((step, index) => ...)]; reading a
    property of [null] throws a TypeError ([None]). *)
Definition renderStep (step : JSValue) : option StepCard :=
  match step with
  | JNull => None
  | _ =>
      Some (mkStepCard
              (border (prop "status" step))
              (getStatusIcon (prop "status" step))
              (prop "step_name" step)
              (getStatusBadge (prop "status" step))
              (getAgentIcon (prop "agent_name" step))
              (prop "agent_name" step)
              (shown (prop "summary" step))
              (shown (prop "error" step))
              (if is_text (prop "status" step) "completed"
               then shown (prop "output" step) else None))
  end.

Section Coercions.

(** [Number(v)] for a string, an array or an object, and [a >= b] for two
    of them (a comparison of their texts): conversions of the language the
    page relies on, taken as given. *)
Variable ToNumber_text : JSValue -> float.
Variable text_ge : JSValue -> JSValue -> bool.

(** [Number(v)] as [/] and [>=] apply it to an operand. *)
Definition ToNumber (v : option JSValue) : float :=
  match v with
  | None => PrimFloat.nan
  | Some JNull => 0%float
  | Some (JBool b) => if b then 1%float else 0%float
  | Some (JNumber n) => n
  | Some x => ToNumber_text x
  end.

Definition is_text_like (v : option JSValue) : bool :=
  match v with
  | Some (JString _) | Some (JArray _) | Some (JObject _) => true
  | _ => false
  end.

(** [a >= b]: a comparison of texts when both operands convert to texts,
    of numbers otherwise; false when a number is NaN. *)
Definition ge (a b : option JSValue) : bool :=
  match a, b with
  | Some x, Some y =>
      if is_text_like a && is_text_like b then text_ge x y
      else PrimFloat.leb (ToNumber b) (ToNumber a)
  | _, _ => false
  end.

(** [workflow ? (workflow.current_step / workflow.total_steps) * 100 : 0] *)
Definition progressPercentage (workflow : JSValue) : float :=
  if truthy workflow
  then PrimFloat.mul
         (PrimFloat.div (ToNumber (prop "current_step" workflow))
                        (ToNumber (prop "total_steps" workflow)))
         100
  else 0%float.

(** What the discovery tab shows of a workflow: the progress card
    (the id, "current / total steps", the progress bar and the completion
    alert), the cards of the steps, the action card and the final response
    card; the alert and the final response card are rendered from
    [final_response] alone and are kept as that value. *)
Record View : Type := mkView {
  view_workflow_id : option JSValue;
  view_current_step : option JSValue;
  view_total_steps : option JSValue;
  view_progress : float;
  view_alert : option JSValue;
  view_steps : list StepCard;
  view_action : option ExecuteButton;
  view_final : option JSValue
}.

Inductive Page : Type :=
| StartWorkflow
| Shown (view : View)
| TypeError.

(** [{!workflow && (<Button onClick={startWorkflow} ...>)}
     {workflow && (<> ... </>)}]; [workflow.steps.map] throws a TypeError
    unless [steps] is an array. *)
Definition render (isExecuting : bool) (workflow : JSValue) : Page :=
  if truthy workflow then
    match prop "steps" workflow with
    | Some (JArray items) =>
        match mapM renderStep items with
        | Some cards =>
            Shown (mkView
                     (prop "workflow_id" workflow)
                     (prop "current_step" workflow)
                     (prop "total_steps" workflow)
                     (progressPercentage workflow)
                     (shown (prop "final_response" workflow))
                     cards
                     (if negb (truthy_opt (prop "final_response" workflow))
                      then Some (mkButton
                                   (isExecuting ||
                                    ge (prop "current_step" workflow)
                                       (prop "total_steps" workflow)))
                      else None)
                     (shown (prop "final_response" workflow)))
        | None => TypeError
        end
    | _ => TypeError
    end
  else StartWorkflow.

End Coercions.

End WorkflowRender.

(** ** The bid pipeline of the back end

    The Python agents and the workflow routes are not among the sources;
    this part follows sections 3 and 4 of the specification.  Amounts and
    match percentages are exact rationals, as the specification asks. *)

Module RequirementItem.
(** Modelled from the spec: the record of section 3 (the parser that
    creates it is missing); [id] is the position in the parsed sequence. *)
Record t : Type := mk {
  id : nat;
  description : string;
  quantity : positive;
  unit : string
}.
End RequirementItem.

Module RequirementParser.
Section Parser.

(** Modelled from the spec: the unit vocabulary ("m", "km", "nos", ...),
    which token after a leading number is a unit token (section 4.1 leaves
    the vocabulary open, so it is a parameter). *)
Variable is_unit : string -> bool.

(** Modelled from the spec: whitespace of section 4.1, the blank and the
    control characters tab to carriage return. *)
Definition is_space (c : ascii) : bool :=
  let n := nat_of_ascii c in
  (n =? 32)%nat || ((9 <=? n)%nat && (n <=? 13)%nat).

(** Modelled from the spec: the line breaks of section 4.1, line feed
    and carriage return. *)
Definition is_line_break (c : ascii) : bool :=
  let n := nat_of_ascii c in
  (n =? 10)%nat || (n =? 13)%nat.

(** Modelled from the spec: the digits of a leading number. *)
Definition is_digit (c : ascii) : bool :=
  let n := nat_of_ascii c in
  (48 <=? n)%nat && (n <=? 57)%nat.

(** Modelled from the spec: "empty or whitespace-only" text. *)
Fixpoint all_space (s : string) : bool :=
  match s with
  | EmptyString => true
  | String c rest => is_space c && all_space rest
  end.

(** Modelled from the spec: the split on item boundaries, here the
    fragments between line breaks. *)
Fixpoint split_fragments (s : string) : list string :=
  match s with
  | EmptyString => [EmptyString]
  | String c rest =>
      if is_line_break c then EmptyString :: split_fragments rest
      else match split_fragments rest with
           | f :: fs => String c f :: fs
           | [] => [String c EmptyString]
           end
  end.

(** Modelled from the spec: a fragment without its leading whitespace. *)
Fixpoint trim_left (s : string) : string :=
  match s with
  | EmptyString => EmptyString
  | String c rest => if is_space c then trim_left rest else s
  end.

(** Modelled from the spec: a fragment without its trailing whitespace. *)
Fixpoint trim_right (s : string) : string :=
  match s with
  | EmptyString => EmptyString
  | String c rest =>
      match trim_right rest with
      | EmptyString => if is_space c then EmptyString else String c EmptyString
      | r => String c r
      end
  end.

(** Modelled from the spec: a fragment without surrounding whitespace. *)
Definition trim (s : string) : string := trim_right (trim_left s).

(** Modelled from the spec: a leading token, the longest prefix of
    characters satisfying [p], and the rest. *)
Fixpoint span (p : ascii -> bool) (s : string) : string * string :=
  match s with
  | EmptyString => (EmptyString, EmptyString)
  | String c rest =>
      if p c then let '(a, b) := span p rest in (String c a, b)
      else (EmptyString, s)
  end.

(** Modelled from the spec: the value of a leading number, a string of
    decimal digits, most significant first. *)
Fixpoint digits_value (acc : N) (s : string) : N :=
  match s with
  | EmptyString => acc
  | String c rest =>
      digits_value (10 * acc + N.of_nat (nat_of_ascii c - 48))%N rest
  end.

(** Modelled from the spec: an enumerated list marker at the head of a
    fragment, digits followed by [.] or [)] and a blank, is part of the
    item boundary and removed. *)
Definition strip_marker (s : string) : string :=
  match span is_digit s with
  | (String _ _, String c (String blank rest)) =>
      if ((Ascii.eqb c "."%char || Ascii.eqb c ")"%char) && is_space blank)%bool
      then trim_left rest else s
  | _ => s
  end.

(** Modelled from the spec: the per-fragment rule of section 4.1 (the
    parser is missing).  A leading number, optionally followed by a unit
    token, gives quantity and unit; otherwise quantity 1 and no unit;
    what remains is the description. *)
Definition parse_fragment (fragment : string) : positive * string * string :=
  let body := strip_marker (trim fragment) in
  match span is_digit body with
  | (String d ds, rest) =>
      match digits_value 0 (String d ds) with
      | Npos q =>
          let rest := trim_left rest in
          let '(token, tail) := span (fun c => negb (is_space c)) rest in
          if is_unit token then (q, token, trim_left tail) else (q, EmptyString, rest)
      | N0 => (1%positive, EmptyString, body)
      end
  | _ => (1%positive, EmptyString, body)
  end.

(** Modelled from the spec: the kept fragments numbered in order, which
    is the order of the text. *)
Fixpoint number_items (next : nat) (parsed : list (positive * string * string))
    : list RequirementItem.t :=
  match parsed with
  | [] => []
  | (q, u, d) :: rest => RequirementItem.mk next d q u :: number_items (S next) rest
  end.

(** Modelled from the spec: the Requirement Parser of section 4.1 (missing
    from the sources): split on the item boundaries, parse each fragment,
    drop the fragments whose description is empty. *)
Definition parse (text : string) : list RequirementItem.t :=
  number_items 1
    (List.filter (fun '(_, _, d) => negb (String.eqb d EmptyString))
                 (map parse_fragment (split_fragments text))).

End Parser.
End RequirementParser.

Module ProductRecord.
(** Modelled from the spec: the catalog record of section 3. *)
Record t : Type := mk {
  sku : string;
  attributes : gmap string string
}.
End ProductRecord.

Module MatchCandidate.
(** Modelled from the spec: section 3. *)
Record t : Type := mk {
  sku : string;
  match_percent : Q
}.
End MatchCandidate.

Module MatchResult.
(** Modelled from the spec: section 3. *)
Record t : Type := mk {
  requirement_item_id : nat;
  top_matches : list MatchCandidate.t;
  chosen_sku : option string
}.
End MatchResult.

Module MatchingEngine.
Section Engine.

(** Modelled from the spec: the extraction of target attributes from a
    description against the attribute vocabulary (section 4.2), attribute
    name and target value, one entry per attribute that has a target; the
    extraction itself is not specified and is a parameter. *)
Variable target_attributes : string -> list (string * string).

(** Modelled from the spec: the count of attributes where the catalog
    value equals the extracted target value. *)
Definition matched (target : list (string * string)) (product : ProductRecord.t) : nat :=
  length
    (List.filter
       (fun '(name, value) =>
          match ProductRecord.attributes product !! name with
          | Some v => String.eqb v value
          | None => false
          end)
       target).

(** Modelled from the spec: the score of section 4.2,
    [100 * matched / targets], and 0 when the item has no target. *)
Definition match_percent (target : list (string * string)) (product : ProductRecord.t) : Q :=
  match length target with
  | O => 0%Q
  | S n => Qmake (100 * Z.of_nat (matched target product)) (Pos.of_succ_nat n)
  end.

(** Modelled from the spec: the comparison of the ranking, [a] may stand
    before [b] on a higher percentage, or on the same percentage and a sku
    that is not lexically greater. *)
Definition rank_leb (a b : MatchCandidate.t) : bool :=
  match Qcompare (MatchCandidate.match_percent b) (MatchCandidate.match_percent a) with
  | Lt => true
  | Eq => String.leb (MatchCandidate.sku a) (MatchCandidate.sku b)
  | Gt => false
  end.

(** Modelled from the spec: the order on candidates, match percentage
    descending, ties broken by ascending sku (lexical). *)
Definition ranks_before (a b : MatchCandidate.t) : Prop :=
  (MatchCandidate.match_percent b < MatchCandidate.match_percent a)%Q
  \/ ((MatchCandidate.match_percent a == MatchCandidate.match_percent b)%Q
      /\ String.leb (MatchCandidate.sku a) (MatchCandidate.sku b) = true).

(** Modelled from the spec: a candidate put at its rank in a ranked
    list. *)
Fixpoint insert_ranked (c : MatchCandidate.t) (ranked : list MatchCandidate.t)
    : list MatchCandidate.t :=
  match ranked with
  | [] => [c]
  | d :: rest => if rank_leb c d then c :: d :: rest else d :: insert_ranked c rest
  end.

(** Modelled from the spec: "rank all candidates", best first. *)
Fixpoint rank (candidates : list MatchCandidate.t) : list MatchCandidate.t :=
  match candidates with
  | [] => []
  | c :: rest => insert_ranked c (rank rest)
  end.

(** Modelled from the spec: [match] of section 4.2 (the technical agent is
    missing): score every product, rank, keep the first three, choose the
    first when it scores above zero. *)
Definition match_item (item : RequirementItem.t) (catalog : list ProductRecord.t)
    : MatchResult.t :=
  let target := target_attributes (RequirementItem.description item) in
  let top :=
    firstn 3
      (rank (map (fun p => MatchCandidate.mk (ProductRecord.sku p) (match_percent target p))
                 catalog)) in
  MatchResult.mk (RequirementItem.id item) top
    match top with
    | best :: _ =>
        match Qcompare 0 (MatchCandidate.match_percent best) with
        | Lt => Some (MatchCandidate.sku best)
        | _ => None
        end
    | [] => None
    end.

End Engine.
End MatchingEngine.

Module PricedItem.
(** Modelled from the spec: section 3. *)
Record t : Type := mk {
  requirement_item_id : nat;
  chosen_sku : option string;
  quantity : positive;
  unit_price : Q;
  material_cost : Q;
  tests_applied : gset string;
  tests_cost : Q;
  total_cost : Q
}.
End PricedItem.

Module PricingEngine.

(** Modelled from the spec: a price-table miss (section 7), recorded and
    not raised. *)
Inductive Warning : Type := LookupMiss (sku : string).

(** Modelled from the spec: the sum of [price[test]] over the applied
    tests, a test without a price counting as 0. *)
Definition tests_cost_of (test_prices : gmap string Q) (tests : gset string) : Q :=
  set_fold (fun test acc => Qplus acc (default 0%Q (test_prices !! test))) 0%Q tests.

(** Modelled from the spec: [price] of section 4.3 (the pricing agent is
    missing), with the warnings it records. *)
Definition price (m : MatchResult.t) (item : RequirementItem.t)
    (unit_prices : gmap string Q) (test_prices : gmap string Q)
    (applicable_tests : gmap string (gset string))
    : PricedItem.t * list Warning :=
  match MatchResult.chosen_sku m with
  | None =>
      (PricedItem.mk (RequirementItem.id item) None (RequirementItem.quantity item)
         0%Q 0%Q ∅ 0%Q 0%Q, [])
  | Some sku =>
      let unit_price := default 0%Q (unit_prices !! sku) in
      let warnings :=
        match unit_prices !! sku with
        | Some _ => []
        | None => [LookupMiss sku]
        end in
      let tests := default ∅ (applicable_tests !! sku) in
      let material_cost :=
        Qmult (inject_Z (Zpos (RequirementItem.quantity item))) unit_price in
      let tests_cost := tests_cost_of test_prices tests in
      (PricedItem.mk (RequirementItem.id item) (Some sku)
         (RequirementItem.quantity item) unit_price material_cost tests tests_cost
         (Qplus material_cost tests_cost),
       warnings)
  end.

(** Modelled from the spec: the aggregation of section 4.3, the plain sum
    of the items' total costs. *)
Definition total_bid_value (pricing : list PricedItem.t) : Q :=
  fold_left (fun sum p => Qplus sum (PricedItem.total_cost p)) pricing 0%Q.

End PricingEngine.

Module FinalBid.
(** Modelled from the spec: section 3. *)
Record t : Type := mk {
  rfp_id : string;
  rfp_title : string;
  rfp_due_date : string;
  scope_of_supply : string;
  technical_items : list (RequirementItem.t * MatchResult.t);
  pricing : list PricedItem.t;
  total_bid_value : Q;
  narrative_summary : string
}.
End FinalBid.

Module Consolidation.
Section Pipeline.
Variable is_unit : string -> bool.
Variable target_attributes : string -> list (string * string).
Variable catalog : list ProductRecord.t.
Variable unit_prices : gmap string Q.
Variable test_prices : gmap string Q.
Variable applicable_tests : gmap string (gset string).

(** Modelled from the spec: the data flow of section 2, text to
    requirement items to matched items to priced items to the final bid
    (the main agent is missing).  The narrative summary comes from the
    external service. *)
Definition final_bid (rfp_id rfp_title rfp_due_date scope_of_supply : string)
    (narrative_summary : string) : FinalBid.t :=
  let items := RequirementParser.parse is_unit scope_of_supply in
  let matches := map (fun item => (item, MatchingEngine.match_item target_attributes item catalog)) items in
  let pricing :=
    map (fun '(item, m) =>
           fst (PricingEngine.price m item unit_prices test_prices applicable_tests))
        matches in
  FinalBid.mk rfp_id rfp_title rfp_due_date scope_of_supply matches pricing
    (PricingEngine.total_bid_value pricing) narrative_summary.

End Pipeline.
End Consolidation.

Module Orchestrator.
Section Machine.

(** Modelled from the spec: the structured output of a step and the
    final bid, as the orchestrator holds them (it does not look into
    either). *)
Variable Output : Type.
Variable Bid : Type.

(** Modelled from the spec: StepRecord of section 3. *)
Record StepRecord : Type := mkStep {
  step_name : string;
  agent_name : string;
  status : StepStatus;
  output : option Output;
  summary : option string;
  error_text : option string
}.

(** Modelled from the spec: WorkflowInstance of section 3. *)
Record WorkflowInstance : Type := mkWorkflow {
  workflow_id : string;
  steps : list StepRecord;
  current_step : nat;
  final_response : option Bid
}.

(** Modelled from the spec: the usage errors of [executeNext]. *)
Inductive OrchestratorError : Type := NotFoundError | AlreadyCompletedError.

(** Modelled from the spec: what the component of a step answers when
    invoked, output and summary or an error text. *)
Inductive Outcome : Type :=
| Succeeded (out : Output) (summary : string)
| Failed (message : string).

(** Modelled from the spec: the assembly of the final bid from the
    completed steps. *)
Variable assemble : list StepRecord -> Bid.

(** Modelled from the spec: [total_steps], the number of steps. *)
Definition total_steps (w : WorkflowInstance) : nat := length (steps w).

(** Modelled from the spec: the fixed, ordered placeholders of [start]
    (section 4.4). *)
Definition placeholders : list StepRecord :=
  map (fun name => mkStep name EmptyString pending None None None)
      ["extraction"; "parsing"; "matching"; "pricing"; "consolidation"].

(** Modelled from the spec: [start] of section 4.4 (the workflow routes
    are missing); [fresh_id] is the new workflow's id. *)
Definition start (fresh_id : string) (store : gmap string WorkflowInstance)
    : WorkflowInstance * gmap string WorkflowInstance :=
  let w := mkWorkflow fresh_id placeholders 0 None in
  (w, <[fresh_id := w]> store).

(** Modelled from the spec: [get] of section 4.4, a read. *)
Definition get (wid : string) (store : gmap string WorkflowInstance)
    : OrchestratorError + WorkflowInstance :=
  match store !! wid with
  | Some w => inr w
  | None => inl NotFoundError
  end.

(** Modelled from the spec: a step record with another status. *)
Definition set_status (st : StepStatus) (s : StepRecord) : StepRecord :=
  mkStep (step_name s) (agent_name s) st (output s) (summary s) (error_text s).

(** Modelled from the spec: an instance with other step records. *)
Definition with_steps (w : WorkflowInstance) (steps' : list StepRecord) : WorkflowInstance :=
  mkWorkflow (workflow_id w) steps' (current_step w) (final_response w).

(** Modelled from the spec: the checks of [executeNext] and the step
    they select, namely the instance, the index [current_step] and the
    record at that index. *)
Definition select (wid : string) (store : gmap string WorkflowInstance)
    : OrchestratorError + (WorkflowInstance * option (nat * StepRecord)) :=
  match store !! wid with
  | None => inl NotFoundError
  | Some w =>
      match final_response w with
      | Some _ => inl AlreadyCompletedError
      | None =>
          inr (w, option_map (fun s => (current_step w, s))
                             (steps w !! current_step w))
      end
  end.

(** Modelled from the spec: the instance as the invoked component sees
    it, the step at [current_step] marked running. *)
Definition mark_running (w : WorkflowInstance) : WorkflowInstance :=
  with_steps w (alter (set_status running) (current_step w) (steps w)).

(** Modelled from the spec: the instance after the component of step [i]
    (record [s]) answered;
    on success the step is completed with its output and summary,
    [current_step] advances by one and, on the last step, the final bid is
    assembled and stored; on failure the step is in error with the error
    text and [current_step] stays. *)
Definition record_outcome (w : WorkflowInstance) (i : nat) (s : StepRecord)
    (o : Outcome) : WorkflowInstance :=
  match o with
  | Succeeded out text =>
      let done := mkStep (step_name s) (agent_name s) completed
                         (Some out) (Some text) (error_text s) in
      let steps' := <[i := done]> (steps w) in
      mkWorkflow (workflow_id w) steps' (S i)
        (if (S i =? length steps')%nat then Some (assemble steps') else None)
  | Failed message =>
      let failed := mkStep (step_name s) (agent_name s) error
                           (output s) (summary s) (Some message) in
      mkWorkflow (workflow_id w) (<[i := failed]> (steps w)) i None
  end.

(** Modelled from the spec: the invariant of section 3 on an instance,
    without a final response there is a step at [current_step], with one
    all steps have run. *)
Definition well_formed (w : WorkflowInstance) : Prop :=
  match final_response w with
  | None => current_step w < length (steps w)
  | Some _ => current_step w = length (steps w)
  end.

(** Modelled from the spec: [executeNext] of section 4.4 (the workflow
    routes are missing).  [invoke i w] is the answer of the component of
    step [i] on the instance [w], whose step [i] is marked running; the
    caller of the model supplies it, for the extraction and summary
    services may fail at one call and succeed at the next.  An instance
    without a final response and without a step at [current_step] does not
    arise from [start] (see [well_formed]); it is answered unchanged. *)
Definition executeNext (invoke : nat -> WorkflowInstance -> Outcome)
    (wid : string) (store : gmap string WorkflowInstance)
    : OrchestratorError + (WorkflowInstance * gmap string WorkflowInstance) :=
  match select wid store with
  | inl e => inl e
  | inr (w, None) => inr (w, store)
  | inr (w, Some (i, s)) =>
      let w' := record_outcome w i s (invoke i (mark_running w)) in
      inr (w', <[wid := w']> store)
  end.

End Machine.
Arguments mkStep {Output}.
Arguments step_name {Output}.
Arguments agent_name {Output}.
Arguments status {Output}.
Arguments output {Output}.
Arguments summary {Output}.
Arguments error_text {Output}.
Arguments mkWorkflow {Output Bid}.
Arguments workflow_id {Output Bid}.
Arguments steps {Output Bid}.
Arguments current_step {Output Bid}.
Arguments final_response {Output Bid}.
Arguments Succeeded {Output}.
Arguments Failed {Output}.
Arguments total_steps {Output Bid}.
Arguments placeholders {Output}.
Arguments start {Output Bid}.
Arguments get {Output Bid}.
Arguments select {Output Bid}.
Arguments mark_running {Output Bid}.
Arguments well_formed {Output Bid}.
Arguments record_outcome {Output Bid}.
Arguments executeNext {Output Bid}.
End Orchestrator.

(** ** AuthContext (contexts/AuthContext.tsx) *)

Module User.
Record t : Type := mk {
  name : string;
  email : string;
  role : string
}.
End User.

(** [Partial<User>] *)
Module PartialUser.
Record t : Type := mk {
  name : option string;
  email : option string;
  role : option string
}.
End PartialUser.

Module AuthContext.

(** The two [useState] cells of [AuthProvider]; [null] is [None]. *)
Record State : Type := mkState {
  isLoggedIn : bool;
  currentUser : option User.t
}.

(** [useState(false)], [useState<User | null>(null)] *)
Definition initial : State := mkState false None.

(** [setIsLoggedIn(true); setCurrentUser(user)] *)
Definition login (user : User.t) (st : State) : State := mkState true (Some user).

(** [setIsLoggedIn(false); setCurrentUser(null)] *)
Definition logout (st : State) : State := mkState false None.

(** [setIsLoggedIn(true); setCurrentUser(user)] *)
Definition register (user : User.t) (st : State) : State := mkState true (Some user).

(** [{ ...currentUser, ...updates }] *)
Definition spread (user : User.t) (updates : PartialUser.t) : User.t :=
  {| User.name := RFPContext.spread_prop (User.name user) (PartialUser.name updates);
     User.email := RFPContext.spread_prop (User.email user) (PartialUser.email updates);
     User.role := RFPContext.spread_prop (User.role user) (PartialUser.role updates) |}.

(** [if (currentUser) { setCurrentUser({ ...currentUser, ...updates }) }] *)
Definition updateProfile (updates : PartialUser.t) (st : State) : State :=
  match currentUser st with
  | Some user => mkState (isLoggedIn st) (Some (spread user updates))
  | None => st
  end.

(** The calls a page can make on the context. *)
Inductive Call : Type :=
| CLogin (user : User.t)
| CLogout
| CRegister (user : User.t)
| CUpdateProfile (updates : PartialUser.t).

Definition call (st : State) (c : Call) : State :=
  match c with
  | CLogin user => login user st
  | CLogout => logout st
  | CRegister user => register user st
  | CUpdateProfile updates => updateProfile updates st
  end.

(** The state after a sequence of calls, oldest first. *)
Definition after (calls : list Call) : State := fold_left call calls initial.

(** The two cells agree: logged in exactly when there is a current user. *)
Definition consistent (st : State) : Prop :=
  isLoggedIn st = match currentUser st with Some _ => true | None => false end.

End AuthContext.

(** ** App (App.tsx): the routes *)

(** What [toast] shows. *)
Inductive Toast : Type :=
| ToastError (message : string)
| ToastSuccess (message : string)
| ToastInfo (message : string).

Module App.

(** The route a location matches in [<Routes>]; [Unmatched] is the
    [path="*"] route. *)
Inductive RoutePath : Type :=
| Root
| LoginPath
| RegisterPath
| DashboardPath
| RfpsPath
| RfpDetailPath (id : string)
| WorkflowPath
| PricingPath
| ProfilePath
| Unmatched.

Inductive Page : Type :=
| LoginPage
| RegisterPage
| DashboardPage
| RFPsPage
| RFPDetailPage (id : string)
| WorkflowPage
| PricingPage
| ProfilePage
| NotFoundPage.

(** What a route's element does: render a page or [<Navigate to=...>]. *)
Inductive Element : Type :=
| Render (page : Page)
| Navigate (to : RoutePath).

(** [isLoggedIn ? <>{children}</> : <Navigate to="/login" />] *)
Definition ProtectedRoute (isLoggedIn : bool) (children : Page) : Element :=
  if isLoggedIn then Render children else Navigate LoginPath.

(** The [element] of each [<Route>]. *)
Definition element (isLoggedIn : bool) (path : RoutePath) : Element :=
  match path with
  | Root => Navigate DashboardPath
  | LoginPath => Render LoginPage
  | RegisterPath => Render RegisterPage
  | DashboardPath => ProtectedRoute isLoggedIn DashboardPage
  | RfpsPath => ProtectedRoute isLoggedIn RFPsPage
  | RfpDetailPath id => ProtectedRoute isLoggedIn (RFPDetailPage id)
  | WorkflowPath => ProtectedRoute isLoggedIn WorkflowPage
  | PricingPath => ProtectedRoute isLoggedIn PricingPage
  | ProfilePath => ProtectedRoute isLoggedIn ProfilePage
  | Unmatched => Render NotFoundPage
  end.

(** The page shown at a location, following at most [redirects]
    navigations; [None] when they are used up. *)
Fixpoint shown (redirects : nat) (isLoggedIn : bool) (path : RoutePath) : option Page :=
  match element isLoggedIn path with
  | Render page => Some page
  | Navigate to =>
      match redirects with
      | O => None
      | S n => shown n isLoggedIn to
      end
  end.

End App.

(** ** Login and Register (pages/Login.tsx, pages/Register.tsx) *)

(** What a submit handler does besides its context calls. *)
Module Effects.
Record t : Type := mk {
  toasts : list Toast;
  navigate : option App.RoutePath
}.
End Effects.

Module Login.

(** [s.split(sep)[0]]: the text before the first [sep], all of [s] when
    there is none. *)
Fixpoint split_first (sep : ascii) (s : string) : string :=
  match s with
  | EmptyString => EmptyString
  | String c rest => if Ascii.eqb c sep then EmptyString else String c (split_first sep rest)
  end.

(** [handleSubmit] on the form fields [email] and [password]; [!s] on a
    string is emptiness. *)
Definition handleSubmit (email password : string) (auth : AuthContext.State)
    : AuthContext.State * Effects.t :=
  if (String.eqb email EmptyString || String.eqb password EmptyString)%bool
  then (auth, Effects.mk [ToastError "Please fill in all fields"] None)
  else (AuthContext.login (User.mk (split_first "@"%char email) email "User") auth,
        Effects.mk [ToastSuccess "Successfully logged in!"] (Some App.DashboardPath)).

End Login.

Module Register.

(** [handleSubmit] on the five form fields. *)
Definition handleSubmit (name email password confirmPassword role : string)
    (auth : AuthContext.State) : AuthContext.State * Effects.t :=
  if (String.eqb name EmptyString || String.eqb email EmptyString
      || String.eqb password EmptyString || String.eqb confirmPassword EmptyString
      || String.eqb role EmptyString)%bool
  then (auth, Effects.mk [ToastError "Please fill in all fields"] None)
  else if negb (String.eqb password confirmPassword)
  then (auth, Effects.mk [ToastError "Passwords do not match"] None)
  else (AuthContext.register (User.mk name email role) auth,
        Effects.mk [ToastSuccess "Account created successfully!"] (Some App.DashboardPath)).

End Register.

(** ** Profile (pages/Profile.tsx) *)

Module Profile.

(** [if (!isLoggedIn || !currentUser) { return <not logged in> }]: whether
    the form is shown. *)
Definition showsForm (auth : AuthContext.State) : bool :=
  negb (negb (AuthContext.isLoggedIn auth)
        || match AuthContext.currentUser auth with Some _ => false | None => true end).

(** [handleUpdate] on the form fields. *)
Definition handleUpdate (name email role : string) (auth : AuthContext.State)
    : AuthContext.State * list Toast :=
  if (String.eqb name EmptyString || String.eqb email EmptyString
      || String.eqb role EmptyString)%bool
  then (auth, [ToastError "Please fill in all fields"])
  else (AuthContext.updateProfile
          (PartialUser.mk (Some name) (Some email) (Some role)) auth,
        [ToastSuccess "Profile updated successfully!"]).

End Profile.

(** ** ActivityContext (contexts/ActivityContext.tsx) *)

Module Activity.
(** [timestamp] is a [Date], held as its time value in milliseconds. *)
Record t : Type := mk {
  id : string;
  timestamp : float;
  action : string;
  details : string
}.
End Activity.

(** The two readings of the clock an activity takes:
    [Date.now().toString()] and [new Date()]. *)
Module Clock.
Record t : Type := mk {
  now : string;
  date : float
}.
End Clock.

Module ActivityContext.

(** [useState<Activity[]>([])] *)
Definition initial : list Activity.t := [].

(** [setActivities([newActivity, ...activities])] *)
Definition addActivity (clock : Clock.t) (action details : string)
    (activities : list Activity.t) : list Activity.t :=
  Activity.mk (Clock.now clock) (Clock.date clock) action details :: activities.

(** [addActivity] is a closure of the render that created it: it writes in
    front of the [activities] of that render, not of the state at the time
    of the call.  A call is the clock at the call, the two arguments, and
    how many writes of the log its closure is behind: none for the
    [addActivity] of the latest render, one for the second of two calls
    made from the same render, more for a closure a timer has kept. *)
Record Call : Type := mkCall {
  clock : Clock.t;
  action : string;
  details : string;
  behind : nat
}.

(** The [newActivity] of a call. *)
Definition entry (c : Call) : Activity.t :=
  Activity.mk (Clock.now (clock c)) (Clock.date (clock c)) (action c) (details c).

(** The logs written so far, the latest first and [initial] last, after
    one more call: the closure sees the log [behind] writes back (the
    initial log when there were fewer writes). *)
Definition call (c : Call) (history : list (list Activity.t)) : list (list Activity.t) :=
  addActivity (clock c) (action c) (details c) (nth (behind c) history initial)
  :: history.

Definition run (calls : list Call) : list (list Activity.t) :=
  fold_left (fun history c => call c history) calls [initial].

(** The [activities] of the provider after the calls. *)
Definition activities (calls : list Call) : list Activity.t :=
  hd initial (run calls).

End ActivityContext.

(** ** Dashboard (pages/Dashboard.tsx) *)

Module Dashboard.

Definition status_eqb (a b : RFPStatus) : bool :=
  match a, b with
  | Open, Open => true
  | InProgress, InProgress => true
  | Submitted, Submitted => true
  | _, _ => false
  end.

(** [rfps.length] *)
Definition totalRFPs (rfps : list RFP.t) : nat := length rfps.

(** [rfps.filter(rfp => rfp.status === 'Open').length] *)
Definition openRFPs (rfps : list RFP.t) : nat :=
  length (List.filter (fun rfp => status_eqb (RFP.status rfp) Open) rfps).

(** [rfps.filter(rfp => rfp.status === 'Submitted').length] *)
Definition submittedRFPs (rfps : list RFP.t) : nat :=
  length (List.filter (fun rfp => status_eqb (RFP.status rfp) Submitted) rfps).

(** [activities.slice(0, 5)], the rows of "Recent Activity". *)
Definition recentActivity (activities : list Activity.t) : list Activity.t :=
  firstn 5 activities.

(** [currentUser?.name || 'User'] *)
Definition welcomeName (auth : AuthContext.State) : string :=
  match AuthContext.currentUser auth with
  | Some user => if String.eqb (User.name user) EmptyString then "User" else User.name user
  | None => "User"
  end.

End Dashboard.

(** ** Agents (pages/Agents.tsx) *)

(** ['Idle' | 'Running' | 'Completed'] *)
Inductive AgentStatus : Type := Idle | Running | Completed.

Module Agent.
Record t : Type := mk {
  id : string;
  name : string;
  description : string;
  status : AgentStatus
}.
End Agent.

Module Agents.

(** What a render of the page sees: its own [agents] cell and the
    activities of the context.  The handlers of a render close over both. *)
Record State : Type := mkState {
  agents : list Agent.t;
  activities : list Activity.t
}.

(** The callback handed to [setTimeout]: it keeps the [agents] and the
    [addActivity] (hence the activities) of the render that created it. *)
Record Timer : Type := mkTimer {
  seen : State;
  agentId : string;
  agent : Agent.t
}.

(** The four agents of [useState<Agent[]>([...])], all idle. *)
Definition initial : list Agent.t :=
  [Agent.mk "1" "Sales Agent"
     "Analyzes RFP documents and extracts key requirements, deadlines, and scope information."
     Idle;
   Agent.mk "2" "Technical Agent"
     "Evaluates technical specifications and matches them with available product catalogs and solutions."
     Idle;
   Agent.mk "3" "Pricing Agent"
     "Calculates pricing based on product SKUs, quantities, and testing requirements."
     Idle;
   Agent.mk "4" "Main Orchestrator"
     "Coordinates all agents and manages the overall RFP workflow from start to finish."
     Idle].

(** [agents.map(a => a.id === agentId ? { ...a, status } : a)] *)
Definition withStatus (agentId : string) (status : AgentStatus)
    (agents : list Agent.t) : list Agent.t :=
  map (fun a =>
         if String.eqb (Agent.id a) agentId
         then Agent.mk (Agent.id a) (Agent.name a) (Agent.description a) status
         else a)
      agents.

(** [handleRunAgent(agentId)] in the render that sees [st]: the state it
    sets, the toast, and the timer it starts, if any. *)
Definition handleRunAgent (clock : Clock.t) (agentId : string) (st : State)
    : State * list Toast * option Timer :=
  match List.find (fun a => String.eqb (Agent.id a) agentId) (agents st) with
  | None => (st, [], None)
  | Some agent =>
      (mkState (withStatus agentId Running (agents st))
               (ActivityContext.addActivity clock "Agent Started"
                  (Agent.name agent ++ " is now running") (activities st)),
       [ToastInfo (Agent.name agent ++ " started")],
       Some (mkTimer st agentId agent))
  end.

(** The timer firing, two seconds later, whatever the state is by then:
    both cells are set from what the timer's render saw. *)
Definition timeout (clock : Clock.t) (timer : Timer) (st : State) : State * list Toast :=
  (mkState (withStatus (agentId timer) Completed (agents (seen timer)))
           (ActivityContext.addActivity clock "Agent Completed"
              (Agent.name (agent timer) ++ " finished successfully")
              (activities (seen timer))),
   [ToastSuccess (Agent.name (agent timer) ++ " completed")]).

(** [disabled={agent.status === 'Running'}] on the run button. *)
Definition runDisabled (a : Agent.t) : bool :=
  match Agent.status a with
  | Running => true
  | _ => false
  end.

End Agents.

(** ** The handlers of the RFP pages (pages/RFPs.tsx, pages/RFPDetail.tsx) *)

(** The two context stores the RFP pages write to. *)
Module Stores.
Record t : Type := mk {
  rfps : list RFP.t;
  activities : list Activity.t
}.
End Stores.

(** The text of a status, as the select offers it. *)
Definition status_label (status : RFPStatus) : string :=
  match status with
  | Open => "Open"
  | InProgress => "In Progress"
  | Submitted => "Submitted"
  end.

Module RFPs.

(** The fields of the creation form. *)
Record Form : Type := mkForm {
  rfpId : string;
  title : string;
  client : string;
  dueDate : string;
  status : RFPStatus
}.

(** The form after the reset at the end of [handleSubmit]. *)
Definition blank : Form := mkForm EmptyString EmptyString EmptyString EmptyString Open.

(** [handleSubmit]: [id] is the [Date.now().toString()] of the new RFP,
    [clock] the readings [addActivity] takes. *)
Definition handleSubmit (id : string) (clock : Clock.t) (form : Form) (st : Stores.t)
    : Stores.t * Form * list Toast :=
  if (String.eqb (rfpId form) EmptyString || String.eqb (title form) EmptyString
      || String.eqb (client form) EmptyString || String.eqb (dueDate form) EmptyString)%bool
  then (st, form, [ToastError "Please fill in all fields"])
  else
    (Stores.mk
       (RFPContext.addRFP id (rfpId form) (title form) (client form) (dueDate form)
          (status form) (Stores.rfps st))
       (ActivityContext.addActivity clock "RFP Created"
          ("Created RFP: " ++ title form ++ " (" ++ rfpId form ++ ")") (Stores.activities st)),
     blank,
     [ToastSuccess "RFP added successfully!"]).

End RFPs.

Module RFPDetailHandlers.
Section Handlers.

(** The built-in [parseInt], from the text of the quantity field to a
    number ([NaN] included). *)
Variable parseInt : string -> float.

(** The four form cells of the page. *)
Record Form : Type := mkForm {
  lineItemDesc : string;
  lineItemQty : string;
  lineItemUnit : string;
  requirementText : string
}.

(** [handleStatusChange(newStatus)] on the record [rfp] the page shows. *)
Definition handleStatusChange (clock : Clock.t) (rfp : RFP.t) (newStatus : RFPStatus)
    (st : Stores.t) : Stores.t * list Toast :=
  (Stores.mk
     (RFPContext.updateRFP (RFP.id rfp)
        (PartialRFP.mk None None None None None (Some newStatus) None None None None)
        (Stores.rfps st))
     (ActivityContext.addActivity clock "Status Updated"
        ("Changed status of " ++ RFP.rfpId rfp ++ " to " ++ status_label newStatus)
        (Stores.activities st)),
   [ToastSuccess "Status updated"]).

(** [handleAddLineItem]; [now] is the id the context gives the item. *)
Definition handleAddLineItem (now : string) (clock : Clock.t) (rfp : RFP.t)
    (form : Form) (st : Stores.t) : Stores.t * Form * list Toast :=
  if (String.eqb (lineItemDesc form) EmptyString
      || String.eqb (lineItemQty form) EmptyString
      || String.eqb (lineItemUnit form) EmptyString)%bool
  then (st, form, [ToastError "Please fill all line item fields"])
  else
    (Stores.mk
       (RFPContext.addLineItem now (RFP.id rfp) (lineItemDesc form)
          (parseInt (lineItemQty form)) (lineItemUnit form) (Stores.rfps st))
       (ActivityContext.addActivity clock "Line Item Added"
          ("Added line item to " ++ RFP.rfpId rfp) (Stores.activities st)),
     mkForm EmptyString EmptyString EmptyString (requirementText form),
     [ToastSuccess "Line item added"]).

(** [handleAddRequirement] *)
Definition handleAddRequirement (now : string) (clock : Clock.t) (rfp : RFP.t)
    (form : Form) (st : Stores.t) : Stores.t * Form * list Toast :=
  if String.eqb (requirementText form) EmptyString
  then (st, form, [ToastError "Please enter a requirement"])
  else
    (Stores.mk
       (RFPContext.addRequirement now (RFP.id rfp) (requirementText form) (Stores.rfps st))
       (ActivityContext.addActivity clock "Requirement Added"
          ("Added requirement to " ++ RFP.rfpId rfp) (Stores.activities st)),
     mkForm (lineItemDesc form) (lineItemQty form) (lineItemUnit form) EmptyString,
     [ToastSuccess "Requirement added"]).

(** [handleAgentAction(action)] *)
Definition handleAgentAction (clock : Clock.t) (rfp : RFP.t) (action : string)
    (st : Stores.t) : Stores.t * list Toast :=
  if String.eqb action "technical"
  then
    (Stores.mk
       (RFPContext.updateRFP (RFP.id rfp)
          (PartialRFP.mk None None None None None None None None (Some true) None)
          (Stores.rfps st))
       (ActivityContext.addActivity clock "Agent Action"
          ("Marked " ++ RFP.rfpId rfp ++ " ready for Technical Agent") (Stores.activities st)),
     [ToastSuccess "Marked ready for Technical Agent"])
  else if String.eqb action "pricing"
  then
    (Stores.mk
       (RFPContext.updateRFP (RFP.id rfp)
          (PartialRFP.mk None None None None None None None None None (Some true))
          (Stores.rfps st))
       (ActivityContext.addActivity clock "Agent Action"
          ("Marked " ++ RFP.rfpId rfp ++ " ready for Pricing") (Stores.activities st)),
     [ToastSuccess "Marked ready for Pricing"])
  else (st, []).

End Handlers.
End RFPDetailHandlers.

(** ** Pricing (pages/Pricing.tsx) *)

Module Pricing.
Section Handlers.

(** The built-ins [parseInt] and [parseFloat]. *)
Variable parseInt : string -> float.
Variable parseFloat : string -> float.

(** The pricing store and the activity log the page writes to. *)
Record Stores : Type := mkStores {
  pricing : PricingContext.State float;
  activities : list Activity.t
}.

(** The selected RFP and the cells of the two forms. *)
Record Form : Type := mkForm {
  selectedRFPId : string;
  oemSku : string;
  prodQty : string;
  unitPrice : string;
  testName : string;
  numTests : string;
  pricePerTest : string
}.

(** [handleAddProduct]; [now] is the id the context gives the row. *)
Definition handleAddProduct (now : string) (clock : Clock.t) (form : Form) (st : Stores)
    : Stores * Form * list Toast :=
  if String.eqb (selectedRFPId form) EmptyString
  then (st, form, [ToastError "Please select an RFP first"])
  else if (String.eqb (oemSku form) EmptyString || String.eqb (prodQty form) EmptyString
           || String.eqb (unitPrice form) EmptyString)%bool
  then (st, form, [ToastError "Please fill all product fields"])
  else
    (mkStores
       (PricingContext.addProduct now
          (ProductRow.mk EmptyString (selectedRFPId form) (oemSku form)
             (parseInt (prodQty form)) (parseFloat (unitPrice form)))
          (pricing st))
       (ActivityContext.addActivity clock "Product Added"
          ("Added product pricing for RFP " ++ selectedRFPId form) (activities st)),
     mkForm (selectedRFPId form) EmptyString EmptyString EmptyString
            (testName form) (numTests form) (pricePerTest form),
     [ToastSuccess "Product row added"]).

(** [handleAddTest] *)
Definition handleAddTest (now : string) (clock : Clock.t) (form : Form) (st : Stores)
    : Stores * Form * list Toast :=
  if String.eqb (selectedRFPId form) EmptyString
  then (st, form, [ToastError "Please select an RFP first"])
  else if (String.eqb (testName form) EmptyString || String.eqb (numTests form) EmptyString
           || String.eqb (pricePerTest form) EmptyString)%bool
  then (st, form, [ToastError "Please fill all test fields"])
  else
    (mkStores
       (PricingContext.addTest now
          (TestRow.mk EmptyString (selectedRFPId form) (testName form)
             (parseInt (numTests form)) (parseFloat (pricePerTest form)))
          (pricing st))
       (ActivityContext.addActivity clock "Test Added"
          ("Added test pricing for RFP " ++ selectedRFPId form) (activities st)),
     mkForm (selectedRFPId form) (oemSku form) (prodQty form) (unitPrice form)
            EmptyString EmptyString EmptyString,
     [ToastSuccess "Test row added"]).

(** [selectedRFPId ? getProductsByRFP(selectedRFPId) : []] *)
Definition products (form : Form) (st : Stores) : list (ProductRow.t float) :=
  if String.eqb (selectedRFPId form) EmptyString then []
  else PricingContext.getProductsByRFP (pricing st) (selectedRFPId form).

(** [selectedRFPId ? getTestsByRFP(selectedRFPId) : []] *)
Definition tests (form : Form) (st : Stores) : list (TestRow.t float) :=
  if String.eqb (selectedRFPId form) EmptyString then []
  else PricingContext.getTestsByRFP (pricing st) (selectedRFPId form).

(** [selectedRFPId ? getTotalMaterialCost(selectedRFPId) : 0] *)
Definition totalMaterial (form : Form) (st : Stores) : float :=
  if String.eqb (selectedRFPId form) EmptyString then 0%float
  else PricingContext.getTotalMaterialCost (pricing st) (selectedRFPId form).

(** [selectedRFPId ? getTotalTestCost(selectedRFPId) : 0] *)
Definition totalTest (form : Form) (st : Stores) : float :=
  if String.eqb (selectedRFPId form) EmptyString then 0%float
  else PricingContext.getTotalTestCost (pricing st) (selectedRFPId form).

(** [selectedRFPId ? getGrandTotal(selectedRFPId) : 0] *)
Definition grandTotal (form : Form) (st : Stores) : float :=
  if String.eqb (selectedRFPId form) EmptyString then 0%float
  else PricingContext.getGrandTotal (pricing st) (selectedRFPId form).

End Handlers.
End Pricing.

(** ** Workflow (pages/Workflow.tsx): the handlers *)

Module WorkflowHandlers.
Section History.

(** The built-ins: [JSON.parse] ([None] when it throws), [JSON.stringify],
    and the iteration of a string by a spread, one text per code point. *)
Variable JSON_parse : string -> option JSValue.
Variable JSON_stringify : JSValue -> string.
Variable code_points : string -> list string.

(** The entry [saveResultToHistory] puts in front: [now] is
    [Date.now()] as text, [iso] is [new Date().toISOString()]. *)
Definition entry (now iso pdfName : string) (response : JSValue) : JSValue :=
  JObject [("id", JString now); ("timestamp", JString iso);
           ("pdfName", JString pdfName); ("response", response)].

(** What [...existing] spreads: the items of an array, the code points of
    a string; anything else is not iterable and the spread throws. *)
Definition spread_items (existing : JSValue) : option (list JSValue) :=
  match existing with
  | JArray items => Some items
  | JString s => Some (map JString (code_points s))
  | _ => None
  end.

(** [existingRaw ? JSON.parse(existingRaw) : []], [None] when the parse
    throws; [stored] is [localStorage.getItem('rfpResults')]. *)
Definition existing (stored : option string) : option JSValue :=
  match stored with
  | None => Some (JArray [])
  | Some raw => if String.eqb raw EmptyString then Some (JArray []) else JSON_parse raw
  end.

(** [[entry, ...existing].slice(0, 50)], [None] when building it throws. *)
Definition updated (now iso pdfName : string) (response : JSValue)
    (stored : option string) : option (list JSValue) :=
  match existing stored with
  | None => None
  | Some value =>
      match spread_items value with
      | None => None
      | Some items => Some (firstn 50 (entry now iso pdfName response :: items))
      end
  end.

(** [saveResultToHistory(pdfName, response)]: the content of the key
    'rfpResults' afterwards.  Whatever is thrown inside the [try] is
    caught and logged, and the storage stays as it was; the write itself
    is taken to succeed. *)
Definition saveResultToHistory (now iso pdfName : string) (response : JSValue)
    (stored : option string) : option string :=
  match updated now iso pdfName response stored with
  | Some items => Some (JSON_stringify (JArray items))
  | None => stored
  end.

End History.

(** The cells of the page that [executeStep] reads and writes. *)
Record Page : Type := mkPage {
  workflow : option WorkflowProgress.t;
  isExecuting : bool
}.




End WorkflowHandlers.

(** ** Scenarios

    The concrete stores, catalogs and workflows the properties below are
    evaluated on. *)

Module Scenarios.
Import PricingContext.
Import Orchestrator.

Local Open Scope float_scope.

(** One test row, two tests at 500 each. *)
Definition two_tests : State float :=
  {| products := [];
     tests := [TestRow.mk "1" "RFP-1" "Insulation Resistance Test" 2 500] |}.

(** The pricing scenario of the specification as rows of the store: 100
    units at 1500.00 and one insulation resistance test at 500.00. *)
Definition priced_scenario : State float :=
  {| products := [ProductRow.mk "1" "RFP-1" "SKU-001" 100 1500];
     tests := [TestRow.mk "2" "RFP-1" "Insulation Resistance Test" 1 500] |}.

(** Three product rows priced 0.1, 0.2 and 0.3, and the same rows reversed. *)
Definition dimes : State float :=
  {| products := [ProductRow.mk "1" "RFP-1" "SKU-001" 1 0.1;
                  ProductRow.mk "2" "RFP-1" "SKU-002" 1 0.2;
                  ProductRow.mk "3" "RFP-1" "SKU-003" 1 0.3];
     tests := [] |}.

Definition dimes_reversed : State float :=
  {| products := rev (products dimes); tests := [] |}.

(** Whole amounts, and the same rows with the first two product rows
    swapped. *)
Definition cents : State float :=
  {| products := [ProductRow.mk "1" "RFP-1" "SKU-001" 3 10;
                  ProductRow.mk "2" "RFP-1" "SKU-002" 1 20;
                  ProductRow.mk "3" "RFP-2" "SKU-003" 1 30];
     tests := [TestRow.mk "4" "RFP-1" "Voltage Withstand Test" 2 80000] |}.

Definition cents_swapped : State float :=
  {| products := [ProductRow.mk "2" "RFP-1" "SKU-002" 1 20;
                  ProductRow.mk "1" "RFP-1" "SKU-001" 3 10;
                  ProductRow.mk "3" "RFP-2" "SKU-003" 1 30];
     tests := tests cents |}.

(** Two RFP records of the store. *)
Definition rfp_a : RFP.t :=
  RFP.mk "1" "RFP-2025-001" "Supply of LT XLPE Power Cables" "PSU" "2025-02-15"
         Open [] [Requirement.mk "7" "Insulation Resistance Test"] false false.

Definition rfp_b : RFP.t :=
  RFP.mk "2" "RFP-2025-002" "Control cables" "LSTK" "2025-03-01"
         InProgress [LineItem.mk "8" "4 core copper cable" 100 "m"] [] true false.

(** A workflow as [start] answers it, none of its six steps run. *)
Definition started : WorkflowProgress.t :=
  WorkflowProgress.mk "wf-1" 0 6
    [WorkflowStep.mk "RFP Discovery" "Sales Agent" pending None None None;
     WorkflowStep.mk "RFP Parsing" "Sales Agent" pending None None None;
     WorkflowStep.mk "Prepare Summaries" "Main Agent" pending None None None;
     WorkflowStep.mk "Product Matching" "Technical Agent" pending None None None;
     WorkflowStep.mk "Cost Calculation" "Pricing Agent" pending None None None;
     WorkflowStep.mk "Final Consolidation" "Main Agent" pending None None None]
    None.





Local Close Scope float_scope.

(** The scenario of the specification: three target attributes, two
    products that have two of them each, under the skus SKU-010 and
    SKU-002, in that catalog order. *)
Definition tie_target (_ : string) : list (string * string) :=
  [("cores", "3"); ("conductor_material", "copper"); ("insulation", "XLPE")].

Definition tie_catalog : list ProductRecord.t :=
  [ProductRecord.mk "SKU-010"
     (list_to_map [("cores", "3"); ("conductor_material", "copper"); ("insulation", "PVC")]);
   ProductRecord.mk "SKU-002"
     (list_to_map [("cores", "4"); ("conductor_material", "copper"); ("insulation", "XLPE")])].

Definition tie_item : RequirementItem.t :=
  RequirementItem.mk 1 "3 core copper XLPE cable" 100 "m".

(** A concrete orchestrator: outputs are texts, the bid is the number
    of completed steps. *)
Definition count_completed (steps : list (StepRecord string)) : nat :=
  length (List.filter (fun s => match status s with completed => true | _ => false end)
                      steps).

Definition always_ok (i : nat) (w : WorkflowInstance string nat) : Outcome string :=
  Succeeded "done" "ok".

Definition always_down (i : nat) (w : WorkflowInstance string nat) : Outcome string :=
  Failed "service unavailable".

(** The instance after [n] successful calls of [executeNext]. *)
Fixpoint advance (n : nat) (w : WorkflowInstance string nat)
    : WorkflowInstance string nat :=
  match n with
  | O => w
  | S k =>
      match executeNext count_completed always_ok (workflow_id w)
                        {[workflow_id w := w]} with
      | inr (w', _) => advance k w'
      | inl _ => w
      end
  end.

(** A started workflow with four steps done, at its last step; another
    with two steps done, at the matching step. *)
Definition at_last_step : WorkflowInstance string nat :=
  Eval vm_compute in advance 4 (fst (start "wf-1" ∅)).

Definition in_matching : WorkflowInstance string nat :=
  Eval vm_compute in advance 2 (fst (start "wf-2" ∅)).

(** A line feed between blanks. *)
Definition blank_text : string :=
  String " "%char (String (ascii_of_nat 10) (String " "%char EmptyString)).

End Scenarios.

(** ** Scenarios of the pages *)

Module PageScenarios.

Local Open Scope float_scope.

(** Two readings of the clock. *)
Definition noon : Clock.t := Clock.mk "1735732800000" 1735732800000.
Definition later : Clock.t := Clock.mk "1735732802000" 1735732802000.

(** The agents page as first rendered, with an empty activity log. *)
Definition agents_page : Agents.State := Agents.mkState Agents.initial [].

(** A store of two RFPs and an empty log. *)
Definition two_rfps : Stores.t :=
  Stores.mk [Scenarios.rfp_a; Scenarios.rfp_b] [].

(** The detail form with a line item typed in. *)
Definition line_item_form : RFPDetailHandlers.Form :=
  RFPDetailHandlers.mkForm "3 core cable" "5" "km" EmptyString.

(** The creation form filled in. *)
Definition new_rfp_form : RFPs.Form :=
  RFPs.mkForm "RFP-2025-003" "HT cables" "EPC" "2025-04-01" Open.

(** The pricing page with RFP 1 selected and a product typed in. *)
Definition product_form : Pricing.Form :=
  Pricing.mkForm "1" "SKU-001" "100" "1500" EmptyString EmptyString EmptyString.

Definition empty_pricing : Pricing.Stores :=
  Pricing.mkStores PricingContext.initial [].



Local Close Scope float_scope.

End PageScenarios.

(** * Properties *)

(** ** Binary64 arithmetic on whole numbers

    Sums and products of whole numbers that stay below 2^53 are computed
    without rounding. *)

Module Binary64Facts.
Import SpecFloat FloatOps FloatAxioms.
Import Binary64.
Local Open Scope Z_scope.

(** The binary digits of a number and of its shifts. *)
Lemma digits2_size n : digits2_pos n = Pos.size n.
Proof. induction n; simpl; congruence. Qed.

Lemma dig_bounds n : 2 ^ (dig n - 1) <= Zpos n < 2 ^ dig n.
Proof.
  unfold dig. rewrite digits2_size.
  pose proof (Pos.size_gt n) as Hgt. pose proof (Pos.size_le n) as Hle.
  apply Pos2Z.pos_lt_pos in Hgt. apply Pos2Z.pos_le_pos in Hle.
  rewrite Pos2Z.inj_pow in Hgt, Hle.
  replace (Zpos (Pos.size n)) with (Z.succ (Zpos (Pos.size n) - 1)) in Hle by lia.
  rewrite Z.pow_succ_r in Hle by lia.
  split; [| exact Hgt]. change (Zpos n~0) with (2 * Zpos n) in Hle. lia.
Qed.

Lemma dig_pos n : 1 <= dig n.
Proof. unfold dig. lia. Qed.

Lemma dig_le n b : 0 <= b -> Zpos n < 2 ^ b -> dig n <= b.
Proof.
  intros Hb Hn. pose proof (dig_bounds n) as [Hlo _]. pose proof (dig_pos n).
  assert (2 ^ (dig n - 1) < 2 ^ b) as Hlt by lia.
  apply Z.pow_lt_mono_r_iff in Hlt; lia.
Qed.

Lemma dig_ge n b : 0 <= b -> 2 ^ b <= Zpos n -> b + 1 <= dig n.
Proof.
  intros Hb Hn. pose proof (dig_bounds n) as [_ Hhi]. pose proof (dig_pos n).
  assert (2 ^ b < 2 ^ dig n) as Hlt by lia.
  apply Z.pow_lt_mono_r_iff in Hlt; lia.
Qed.

Lemma dig_shl n k : dig (shl n k) = dig n + Z.of_nat k.
Proof.
  unfold dig, shl. induction k as [| k IH].
  - simpl. lia.
  - rewrite Nat.iter_succ. cbn [digits2_pos]. lia.
Qed.

Lemma shl_add n j k : shl (shl n j) k = shl n (k + j).
Proof. unfold shl. symmetry. apply Nat.iter_add. Qed.

Lemma Pos_iter_shl n d : Pos.iter xO n d = shl n (Pos.to_nat d).
Proof. unfold shl. apply Pos2Nat.inj_iter. Qed.

Lemma shl_plus a b k : (shl a k + shl b k)%positive = shl (a + b) k.
Proof.
  unfold shl. induction k as [| k IH]; [reflexivity |].
  rewrite !Nat.iter_succ, <- IH. reflexivity.
Qed.

Lemma shl_value n k : Zpos (shl n k) = Zpos n * 2 ^ Z.of_nat k.
Proof.
  unfold shl. induction k as [| k IH].
  - simpl. lia.
  - rewrite Nat.iter_succ, Nat2Z.inj_succ, Z.pow_succ_r by lia.
    rewrite Pos2Z.inj_xO, IH. ring.
Qed.

(** Shifting right what was shifted left loses nothing: the rounding
    record stays exact. *)
Lemma iter_pos_nat {A : Type} (f : A -> A) p x :
  iter_pos f p x = Nat.iter (Pos.to_nat p) f x.
Proof.
  revert x. induction p as [p IH | p IH |]; intros x; cbn [iter_pos].
  - rewrite !IH, Pos2Nat.inj_xI, <- Nat.iter_add, <- Nat.iter_succ_r.
    f_equal. lia.
  - rewrite !IH, Pos2Nat.inj_xO, <- Nat.iter_add. f_equal. lia.
  - reflexivity.
Qed.

Lemma shr_1_shl k m :
  Nat.iter k shr_1 (Build_shr_record (Zpos (shl m k)) false false) =
  Build_shr_record (Zpos m) false false.
Proof.
  induction k as [| k IH]; [reflexivity |].
  rewrite Nat.iter_succ_r. unfold shl. rewrite Nat.iter_succ. cbn [shr_1 orb].
  exact IH.
Qed.

Lemma fexp_normal d : -1021 <= d -> fexp prec emax d = d - 53.
Proof. intros Hd. unfold fexp, emin, prec, emax. lia. Qed.

Lemma shr_fexp_exact m e j :
  dig m = 53 -> -1074 <= e ->
  shr_fexp prec emax (Zpos (shl m j)) (e - Z.of_nat j) loc_Exact =
  (Build_shr_record (Zpos m) false false, e).
Proof.
  intros Hm He. unfold shr_fexp. cbn [Zdigits2 shr_record_of_loc].
  fold (dig (shl m j)). rewrite dig_shl, Hm, fexp_normal by lia.
  replace (53 + Z.of_nat j + (e - Z.of_nat j) - 53 - (e - Z.of_nat j))
    with (Z.of_nat j) by lia.
  destruct (Z.of_nat j) as [| p | p] eqn:E; unfold shr.
  - assert (j = 0%nat) as -> by lia. unfold shl. simpl. f_equal. lia.
  - assert (j = Pos.to_nat p) as -> by lia.
    rewrite iter_pos_nat, shr_1_shl. f_equal. lia.
  - lia.
Qed.

(** Rounding a 53-bit mantissa that was shifted left gives the mantissa
    back, and normalising any shift of a whole number below 2^53 gives its
    canonical form. *)
Lemma binary_round_aux_exact m e j :
  dig m = 53 -> -1074 <= e <= 971 ->
  binary_round_aux prec emax false (Zpos (shl m j)) (e - Z.of_nat j) loc_Exact =
  S754_finite false m e.
Proof.
  intros Hm He. unfold binary_round_aux.
  rewrite shr_fexp_exact by lia.
  cbn [shr_m loc_of_shr_record round_nearest_even].
  pose proof (shr_fexp_exact m e 0 Hm (proj1 He)) as H0.
  unfold shl in H0. cbn [Nat.iter nat_rect Z.of_nat] in H0.
  rewrite Z.sub_0_r in H0. rewrite H0. cbn [shr_m].
  replace (e <=? emax - prec) with true; [reflexivity |].
  symmetry. apply Z.leb_le. unfold emax, prec. lia.
Qed.

Lemma binary_normalize_whole n k :
  dig n <= 53 ->
  binary_normalize prec emax (Zpos (shl n k)) (- Z.of_nat k) false = canon n.
Proof.
  intros Hn. pose proof (dig_pos n) as Hp.
  unfold binary_normalize, binary_round, canon.
  fold (dig (shl n k)). rewrite dig_shl, fexp_normal by lia.
  unfold shl_align.
  destruct (dig n + Z.of_nat k + - Z.of_nat k - 53 - - Z.of_nat k) as [| d | d] eqn:E.
  - replace (shl n k) with (shl (shl n (Z.to_nat (53 - dig n))) 0).
    2:{ rewrite shl_add. f_equal. lia. }
    replace (- Z.of_nat k) with (dig n - 53 - Z.of_nat 0) by lia.
    apply binary_round_aux_exact; [rewrite dig_shl | ]; lia.
  - replace (shl n k) with (shl (shl n (Z.to_nat (53 - dig n))) (Pos.to_nat d)).
    2:{ rewrite shl_add. f_equal. lia. }
    replace (- Z.of_nat k) with (dig n - 53 - Z.of_nat (Pos.to_nat d)) by lia.
    apply binary_round_aux_exact; [rewrite dig_shl | ]; lia.
  - rewrite Pos_iter_shl, shl_add.
    replace (Pos.to_nat d + k)%nat with (Z.to_nat (53 - dig n)) by lia.
    replace (dig n + Z.of_nat k + - Z.of_nat k - 53)
      with (dig n - 53 - Z.of_nat 0) by lia.
    change (shl n (Z.to_nat (53 - dig n)))
      with (shl (shl n (Z.to_nat (53 - dig n))) 0) at 1.
    rewrite binary_round_aux_exact; [reflexivity | rewrite dig_shl | ]; lia.
Qed.

(** The binary64 value of a whole number has the canonical sign, mantissa
    and exponent. *)
Lemma Prim2SF_whole z :
  0 <= z < 2 ^ 53 -> Prim2SF (whole z) = spec_of z.
Proof.
  intros Hz. unfold whole. rewrite of_uint63_spec, Uint63.of_Z_spec.
  rewrite Z.mod_small.
  2:{ split; [lia |]. apply Z.lt_trans with (2 ^ 53); [lia | reflexivity]. }
  destruct z as [| n | n]; [reflexivity | | lia].
  change (Zpos n) with (Zpos (shl n 0)) at 1.
  change 0 with (- Z.of_nat 0) at 1.
  apply binary_normalize_whole, dig_le; lia.
Qed.

Lemma SFadd_canon a b :
  Zpos a + Zpos b < 2 ^ 53 ->
  SF64add (canon a) (canon b) = canon (a + b).
Proof.
  intros Hab.
  assert (Ha : dig a <= 53) by (apply dig_le; lia).
  assert (Hb : dig b <= 53) by (apply dig_le; lia).
  assert (Hs : dig (a + b) <= 53) by (apply dig_le; lia).
  pose proof (dig_pos a). pose proof (dig_pos b).
  remember (canon (a + b)) as r eqn:Hr.
  unfold SF64add, SFadd, canon. cbv zeta. cbn [cond_Zopp].
  set (ez := Z.min (dig a - 53) (dig b - 53)).
  assert (Hfa : fst (shl_align (shl a (Z.to_nat (53 - dig a))) (dig a - 53) ez)
                = shl a (Z.to_nat (- ez))).
  { unfold shl_align. destruct (ez - (dig a - 53)) as [| d | d] eqn:E; cbn [fst].
    - f_equal. lia.
    - lia.
    - rewrite Pos_iter_shl, shl_add. f_equal. lia. }
  assert (Hfb : fst (shl_align (shl b (Z.to_nat (53 - dig b))) (dig b - 53) ez)
                = shl b (Z.to_nat (- ez))).
  { unfold shl_align. destruct (ez - (dig b - 53)) as [| d | d] eqn:E; cbn [fst].
    - f_equal. lia.
    - lia.
    - rewrite Pos_iter_shl, shl_add. f_equal. lia. }
  fold ez. rewrite Hfa, Hfb, <- Pos2Z.inj_add, shl_plus. subst r.
  replace ez with (- Z.of_nat (Z.to_nat (- ez))) at 2 by lia.
  apply binary_normalize_whole, Hs.
Qed.

(** The binary64 sum of two whole numbers is their sum, as long as it is
    below 2^53. *)
Theorem add_whole a b :
  0 <= a -> 0 <= b -> a + b < 2 ^ 53 ->
  PrimFloat.add (whole a) (whole b) = whole (a + b).
Proof.
  intros Ha Hb Hab. apply Prim2SF_inj.
  rewrite add_spec, !Prim2SF_whole by lia.
  destruct a as [| a | a]; [| | lia]; destruct b as [| b | b]; try lia.
  - reflexivity.
  - reflexivity.
  - reflexivity.
  - apply SFadd_canon. lia.
Qed.

Lemma shl_times a b j k : (shl a j * shl b k)%positive = shl (a * b) (j + k).
Proof.
  apply Pos2Z.inj. rewrite Pos2Z.inj_mul, !shl_value, Pos2Z.inj_mul.
  rewrite Nat2Z.inj_add, Z.pow_add_r by lia. ring.
Qed.

Lemma dig_mul a b : dig a + dig b - 1 <= dig (a * b).
Proof.
  pose proof (dig_bounds a) as [Ha _]. pose proof (dig_bounds b) as [Hb _].
  pose proof (dig_pos a). pose proof (dig_pos b).
  replace (dig a + dig b - 1) with ((dig a - 1) + (dig b - 1) + 1) by lia.
  apply dig_ge; [lia |].
  rewrite Z.pow_add_r, Pos2Z.inj_mul by lia.
  apply Z.mul_le_mono_nonneg; try assumption; apply Z.pow_nonneg; lia.
Qed.

Lemma SFmul_canon a b :
  Zpos a * Zpos b < 2 ^ 53 ->
  SF64mul (canon a) (canon b) = canon (a * b).
Proof.
  intros Hab.
  assert (Hs : dig (a * b) <= 53) by (apply dig_le; lia).
  pose proof (dig_mul a b) as Hm.
  pose proof (dig_pos a). pose proof (dig_pos b).
  assert (Ha : dig a <= 53) by lia.
  assert (Hb : dig b <= 53) by lia.
  remember (canon (a * b)) as r eqn:Hr.
  unfold SF64mul, SFmul, canon. cbn [xorb]. subst r. unfold canon.
  rewrite shl_times.
  replace (Z.to_nat (53 - dig a) + Z.to_nat (53 - dig b))%nat
    with (Z.to_nat (53 - dig a - dig b + dig (a * b))
          + Z.to_nat (53 - dig (a * b)))%nat by lia.
  rewrite <- shl_add.
  replace (dig a - 53 + (dig b - 53))
    with (dig (a * b) - 53
          - Z.of_nat (Z.to_nat (53 - dig a - dig b + dig (a * b)))) by lia.
  apply binary_round_aux_exact; [rewrite dig_shl |]; lia.
Qed.

(** The binary64 product of two whole numbers is their product, as long
    as it is below 2^53. *)
Theorem mul_whole a b :
  0 <= a < 2 ^ 53 -> 0 <= b < 2 ^ 53 -> a * b < 2 ^ 53 ->
  PrimFloat.mul (whole a) (whole b) = whole (a * b).
Proof.
  intros Ha Hb Hab. apply Prim2SF_inj.
  rewrite mul_spec, !Prim2SF_whole by lia.
  destruct a as [| a | a]; [| | lia]; destruct b as [| b | b]; try lia.
  - reflexivity.
  - reflexivity.
  - reflexivity.
  - apply SFmul_canon. lia.
Qed.

(** Every whole number from 0 to 2^53 - 1 is a whole amount. *)
Lemma units_whole z : 0 <= z < 2 ^ 53 -> units (whole z) = z.
Proof.
  intros Hz. unfold units. rewrite Prim2SF_whole by assumption.
  destruct z as [| n | n]; [reflexivity | | lia].
  assert (Hn : dig n <= 53) by (apply dig_le; lia).
  pose proof (dig_pos n) as Hp.
  cbn [spec_of canon].
  rewrite Z.shiftl_div_pow2, shl_value by lia.
  replace (- (dig n - 53)) with (Z.of_nat (Z.to_nat (53 - dig n))) by lia.
  apply Z.div_mul. apply Z.pow_nonzero; lia.
Qed.

Lemma whole_amount_whole z : 0 <= z < 2 ^ 53 -> whole_amount (whole z).
Proof.
  intros Hz. unfold whole_amount. rewrite units_whole by assumption.
  split; [exact Hz | reflexivity].
Qed.

End Binary64Facts.

Module PricingFacts.
Import Scenarios.
Import PricingContext.

Section Generic.
Context {num : Type} `{Arith num}.

Lemma fold_left_add_map {A : Type} (f : A -> num) (l : list A) (acc : num) :
  fold_left (fun sum x => add sum (f x)) l acc = fold_left add (map f l) acc.
Proof.
  revert acc. induction l as [|x l IH]; intros acc; simpl.
  - reflexivity.
  - apply IH.
Qed.

Lemma material_cost_running_sum (st : State num) (rfpId : string) :
  getTotalMaterialCost st rfpId = running_sum (map lineTotal (getProductsByRFP st rfpId)).
Proof. unfold getTotalMaterialCost, running_sum. apply fold_left_add_map. Qed.

Lemma test_cost_running_sum (st : State num) (rfpId : string) :
  getTotalTestCost st rfpId = running_sum (map testTotal (getTestsByRFP st rfpId)).
Proof. unfold getTotalTestCost, running_sum. apply fold_left_add_map. Qed.

Lemma getProductsByRFP_addProduct (now : string) (p : ProductRow.t num)
    (st : State num) (rfpId : string) :
  getProductsByRFP (addProduct now p st) rfpId =
  getProductsByRFP st rfpId ++
  (if String.eqb (ProductRow.rfpId p) rfpId
   then [ProductRow.mk now (ProductRow.rfpId p) (ProductRow.oemSku p)
           (ProductRow.quantity p) (ProductRow.unitPrice p)]
   else []).
Proof.
  unfold getProductsByRFP, addProduct; simpl.
  rewrite List.filter_app; simpl.
  destruct (String.eqb (ProductRow.rfpId p) rfpId); reflexivity.
Qed.

Lemma getTestsByRFP_addTest (now : string) (t : TestRow.t num)
    (st : State num) (rfpId : string) :
  getTestsByRFP (addTest now t st) rfpId =
  getTestsByRFP st rfpId ++
  (if String.eqb (TestRow.rfpId t) rfpId
   then [TestRow.mk now (TestRow.rfpId t) (TestRow.testName t)
           (TestRow.numberOfTests t) (TestRow.pricePerTest t)]
   else []).
Proof.
  unfold getTestsByRFP, addTest; simpl.
  rewrite List.filter_app; simpl.
  destruct (String.eqb (TestRow.rfpId t) rfpId); reflexivity.
Qed.

(** C1. The material cost of an RFP is the running sum, in row order, of
    quantity times unit price over its product rows; every product row
    added for the RFP raises it by exactly that row's quantity times unit
    price (and rows of other RFPs leave it alone); and the grand total is
    the material cost plus the tests cost.  This holds for the arithmetic
    of the code (binary64) as for any other. *)
Theorem pricing_totals_exact (st : State num) (rfpId : string) :
  getTotalMaterialCost st rfpId =
    running_sum
      (map (fun p => mul (ProductRow.quantity p) (ProductRow.unitPrice p))
           (getProductsByRFP st rfpId))
  /\ (forall now p,
        getTotalMaterialCost (addProduct now p st) rfpId =
        if String.eqb (ProductRow.rfpId p) rfpId
        then add (getTotalMaterialCost st rfpId)
                 (mul (ProductRow.quantity p) (ProductRow.unitPrice p))
        else getTotalMaterialCost st rfpId)
  /\ getGrandTotal st rfpId =
       add (getTotalMaterialCost st rfpId) (getTotalTestCost st rfpId).
Proof.
  split; [apply material_cost_running_sum | split; [| reflexivity]].
  intros now p. unfold getTotalMaterialCost at 1.
  rewrite getProductsByRFP_addProduct, fold_left_app.
  destruct (String.eqb (ProductRow.rfpId p) rfpId); reflexivity.
Qed.

(** C2, as the code has it.  The tests cost of an RFP is the running sum
    over its test rows of the number of tests times the price per test;
    every test row added for the RFP raises it by exactly that product. *)
Theorem test_cost_weighted_by_count (st : State num) (rfpId : string) :
  getTotalTestCost st rfpId =
    running_sum
      (map (fun t => mul (TestRow.numberOfTests t) (TestRow.pricePerTest t))
           (getTestsByRFP st rfpId))
  /\ (forall now t,
        getTotalTestCost (addTest now t st) rfpId =
        if String.eqb (TestRow.rfpId t) rfpId
        then add (getTotalTestCost st rfpId)
                 (mul (TestRow.numberOfTests t) (TestRow.pricePerTest t))
        else getTotalTestCost st rfpId).
Proof.
  split; [apply test_cost_running_sum |].
  intros now t. unfold getTotalTestCost at 1.
  rewrite getTestsByRFP_addTest, fold_left_app.
  destruct (String.eqb (TestRow.rfpId t) rfpId); reflexivity.
Qed.

Lemma Permutation_List_filter {A : Type} (f : A -> bool) (l l' : list A) :
  Permutation l l' -> Permutation (List.filter f l) (List.filter f l').
Proof.
  induction 1 as [| x l l' _ IH | x y l | l l' l'' _ IH1 _ IH2]; simpl.
  - constructor.
  - destruct (f x); [constructor |]; exact IH.
  - destruct (f x), (f y); try apply Permutation_refl. apply perm_swap.
  - eapply perm_trans; eassumption.
Qed.

End Generic.

(** *** Concrete stores *)

(** C2, as stated, fails on the code: with two tests at 500 the tests cost
    is 1000, not the plain sum 500 of the per-test prices. *)
Lemma test_cost_not_plain_sum :
  getTotalTestCost two_tests "RFP-1" = 1000%float
  /\ running_sum (map TestRow.pricePerTest (getTestsByRFP two_tests "RFP-1")) = 500%float
  /\ getTotalTestCost two_tests "RFP-1" <>
     running_sum (map TestRow.pricePerTest (getTestsByRFP two_tests "RFP-1")).
Proof.
  split; [reflexivity | split; [reflexivity |]].
  intros E. apply (f_equal (fun x => PrimFloat.eqb x 1000%float)) in E.
  vm_compute in E. discriminate E.
Qed.

(** C6, as stated, fails on the code: reversing three product rows changes
    the binary64 grand total (0.6000000000000001 against 0.6). *)
Lemma grand_total_depends_on_order :
  Permutation (products dimes) (products dimes_reversed)
  /\ Permutation (tests dimes) (tests dimes_reversed)
  /\ getGrandTotal dimes "RFP-1" <> getGrandTotal dimes_reversed "RFP-1".
Proof.
  split; [apply Permutation_rev | split; [apply Permutation_refl |]].
  intros E.
  apply (f_equal (fun x => PrimFloat.eqb x (getGrandTotal dimes "RFP-1"))) in E.
  vm_compute in E. discriminate E.
Qed.

(** *** Whole amounts *)

Lemma exact_sum_nonneg {A : Type} (q u : A -> float) (rows : list A) :
  Forall (fun r => whole_amount (q r) /\ whole_amount (u r)) rows ->
  (0 <= ExactTotals.exact_sum q u rows)%Z.
Proof.
  induction 1 as [| r rows [[Hq _] [Hu _]] _ IH]; cbn; [lia |].
  unfold ExactTotals.exact_sum in IH. nia.
Qed.

Lemma exact_sum_Permutation {A : Type} (q u : A -> float) (rows rows' : list A) :
  Permutation rows rows' ->
  ExactTotals.exact_sum q u rows = ExactTotals.exact_sum q u rows'.
Proof.
  unfold ExactTotals.exact_sum.
  induction 1 as [| x l l' _ IH | x y l | l l' l'' _ IH1 _ IH2]; cbn; lia.
Qed.

Lemma fold_left_whole {A : Type} (q u : A -> float) (rows : list A) (acc : Z) :
  Forall (fun r => whole_amount (q r) /\ whole_amount (u r)) rows ->
  (0 <= acc)%Z ->
  (acc + ExactTotals.exact_sum q u rows < 2 ^ 53)%Z ->
  fold_left (fun sum r => PrimFloat.add sum (PrimFloat.mul (q r) (u r)))
            rows (whole acc) =
  whole (acc + ExactTotals.exact_sum q u rows).
Proof.
  intros Hall. revert acc.
  induction Hall as [| r rows [[Hq Eq] [Hu Eu]] Hall IH]; intros acc Hacc Hsum.
  - cbn [fold_left]. f_equal. unfold ExactTotals.exact_sum.
    cbn [map fold_right]. lia.
  - pose proof (exact_sum_nonneg q u rows Hall) as Hrest.
    change (ExactTotals.exact_sum q u (r :: rows))
      with (units (q r) * units (u r) + ExactTotals.exact_sum q u rows)%Z in *.
    assert (Hprod : (0 <= units (q r) * units (u r))%Z) by nia.
    cbn [fold_left].
    assert (Hm : PrimFloat.mul (q r) (u r) = whole (units (q r) * units (u r))).
    { transitivity (PrimFloat.mul (whole (units (q r))) (whole (units (u r)))).
      - f_equal; assumption.
      - apply Binary64Facts.mul_whole; lia. }
    rewrite Hm, Binary64Facts.add_whole, IH by lia.
    f_equal. lia.
Qed.

(** C6, as the code has it.  The totals are plain left-to-right binary64
    sums in row order.  Where every quantity, count and price of the RFP's
    rows is a whole amount and the exact grand total stays below 2^53, each
    total of the store is the exact whole-number sum, whatever the order
    of the product rows and of the test rows, and so the same for every
    permutation of them. *)
Theorem grand_total_order_independent_exact (st st' : State float) (rfpId : string) :
  Forall (fun p => whole_amount (ProductRow.quantity p)
                   /\ whole_amount (ProductRow.unitPrice p))
         (getProductsByRFP st rfpId) ->
  Forall (fun t => whole_amount (TestRow.numberOfTests t)
                   /\ whole_amount (TestRow.pricePerTest t))
         (getTestsByRFP st rfpId) ->
  (ExactTotals.grandTotal st rfpId < 2 ^ 53)%Z ->
  Permutation (products st) (products st') ->
  Permutation (tests st) (tests st') ->
  getTotalMaterialCost st' rfpId = whole (ExactTotals.materialCost st rfpId)
  /\ getTotalTestCost st' rfpId = whole (ExactTotals.testCost st rfpId)
  /\ getGrandTotal st' rfpId = whole (ExactTotals.grandTotal st rfpId)
  /\ getTotalMaterialCost st rfpId = getTotalMaterialCost st' rfpId
  /\ getTotalTestCost st rfpId = getTotalTestCost st' rfpId
  /\ getGrandTotal st rfpId = getGrandTotal st' rfpId.
Proof.
  intros Hp Ht Hsum Pp Pt.
  unfold ExactTotals.grandTotal in *.
  pose proof (exact_sum_nonneg _ _ _ Hp) as Hm0.
  pose proof (exact_sum_nonneg _ _ _ Ht) as Ht0.
  fold (ExactTotals.materialCost st rfpId) in Hm0.
  fold (ExactTotals.testCost st rfpId) in Ht0.
  assert (material : forall s,
            Permutation (products st) (products s) ->
            getTotalMaterialCost s rfpId = whole (ExactTotals.materialCost st rfpId)).
  { intros s Ps.
    assert (Pf : Permutation (getProductsByRFP st rfpId) (getProductsByRFP s rfpId))
      by apply Permutation_List_filter, Ps.
    unfold getTotalMaterialCost, ExactTotals.materialCost.
    rewrite (exact_sum_Permutation _ _ _ _ Pf).
    change (@zero float binary64) with (whole 0).
    change (@add float binary64) with PrimFloat.add.
    change (@mul float binary64) with PrimFloat.mul.
    rewrite (fold_left_whole ProductRow.quantity ProductRow.unitPrice).
    - reflexivity.
    - eapply Permutation_Forall; eassumption.
    - lia.
    - rewrite <- (exact_sum_Permutation _ _ _ _ Pf).
      fold (ExactTotals.materialCost st rfpId). lia. }
  assert (test : forall s,
            Permutation (tests st) (tests s) ->
            getTotalTestCost s rfpId = whole (ExactTotals.testCost st rfpId)).
  { intros s Ps.
    assert (Pf : Permutation (getTestsByRFP st rfpId) (getTestsByRFP s rfpId))
      by apply Permutation_List_filter, Ps.
    unfold getTotalTestCost, ExactTotals.testCost.
    rewrite (exact_sum_Permutation _ _ _ _ Pf).
    change (@zero float binary64) with (whole 0).
    change (@add float binary64) with PrimFloat.add.
    change (@mul float binary64) with PrimFloat.mul.
    rewrite (fold_left_whole TestRow.numberOfTests TestRow.pricePerTest).
    - reflexivity.
    - eapply Permutation_Forall; eassumption.
    - lia.
    - rewrite <- (exact_sum_Permutation _ _ _ _ Pf).
      fold (ExactTotals.testCost st rfpId). lia. }
  assert (grand : forall s,
            Permutation (products st) (products s) ->
            Permutation (tests st) (tests s) ->
            getGrandTotal s rfpId =
            whole (ExactTotals.materialCost st rfpId + ExactTotals.testCost st rfpId)).
  { intros s Ps Ps'. unfold getGrandTotal.
    rewrite (material s Ps), (test s Ps').
    apply Binary64Facts.add_whole; lia. }
  repeat split.
  - apply material, Pp.
  - apply test, Pt.
  - apply grand; assumption.
  - rewrite (material st), (material st'); auto.
  - rewrite (test st), (test st'); auto.
  - rewrite (grand st), (grand st'); auto.
Qed.

Lemma grand_total_order_independent_exact_witness :
  Permutation (products cents) (products cents_swapped)
  /\ ExactTotals.grandTotal cents "RFP-1" = 160050%Z
  /\ getGrandTotal cents_swapped "RFP-1" = 160050%float
  /\ getGrandTotal cents "RFP-1" = getGrandTotal cents_swapped "RFP-1".
Proof.
  assert (Hp : Permutation (products cents) (products cents_swapped))
    by apply perm_swap.
  assert (Ht : Permutation (tests cents) (tests cents_swapped))
    by apply Permutation_refl.
  assert (Hw : forall x, (0 <=? units x)%Z && (units x <? 2 ^ 53)%Z = true ->
                         x = whole (units x) -> whole_amount x).
  { intros x Hb Hx. apply andb_prop in Hb as [H0 H1].
    apply Z.leb_le in H0. apply Z.ltb_lt in H1. repeat split; assumption. }
  pose proof (grand_total_order_independent_exact cents cents_swapped "RFP-1")
    as H.
  destruct H as (_ & _ & Hg & _ & _ & He); try assumption.
  - repeat constructor; apply Hw; reflexivity.
  - repeat constructor; apply Hw; reflexivity.
  - reflexivity.
  - split; [exact Hp | split; [reflexivity | split; [exact Hg | exact He]]].
Defined.

Lemma priced_scenario_totals :
  getTotalMaterialCost priced_scenario "RFP-1" = 150000%float
  /\ getTotalTestCost priced_scenario "RFP-1" = 500%float
  /\ getGrandTotal priced_scenario "RFP-1" = 150500%float.
Proof. repeat split; reflexivity. Qed.

(** With no product rows and no test rows for an RFP, the three totals of
    the store are the number 0. *)
Lemma totals_zero_without_rows (st : State float) (rfpId : string) :
  getProductsByRFP st rfpId = [] ->
  getTestsByRFP st rfpId = [] ->
  getTotalMaterialCost st rfpId = 0%float
  /\ getTotalTestCost st rfpId = 0%float
  /\ getGrandTotal st rfpId = 0%float.
Proof.
  intros Hp Ht.
  unfold getGrandTotal, getTotalMaterialCost, getTotalTestCost.
  rewrite Hp, Ht. simpl. repeat split; reflexivity.
Qed.

End PricingFacts.

Module RFPFacts.
Import Scenarios.
Import RFPContext.

Lemma eqb_id_false (rfp : RFP.t) (id : string) :
  RFP.id rfp <> id -> String.eqb (RFP.id rfp) id = false.
Proof. intros Hne. apply String.eqb_neq, Hne. Qed.

(** C9. A call of [updateRFP], [addLineItem] or [addRequirement] for one
    id keeps the number of records, and every record whose id is another
    one stays at its index with all its fields, line items and
    requirements included. *)
Theorem writes_leave_other_rfps_unchanged
    (id : string) (rfps : list RFP.t) (i : nat) (other : RFP.t) :
  nth_error rfps i = Some other ->
  RFP.id other <> id ->
  (forall updates,
      length (updateRFP id updates rfps) = length rfps
      /\ nth_error (updateRFP id updates rfps) i = Some other)
  /\ (forall now description quantity unit,
        length (addLineItem now id description quantity unit rfps) = length rfps
        /\ nth_error (addLineItem now id description quantity unit rfps) i = Some other)
  /\ (forall now text,
        length (addRequirement now id text rfps) = length rfps
        /\ nth_error (addRequirement now id text rfps) i = Some other).
Proof.
  intros Hi Hne. apply eqb_id_false in Hne.
  repeat split; intros;
    try (unfold updateRFP, addLineItem, addRequirement; apply length_map);
    unfold updateRFP, addLineItem, addRequirement;
    rewrite nth_error_map, Hi; simpl; rewrite Hne; reflexivity.
Qed.

Lemma writes_leave_other_rfps_unchanged_witness :
  nth_error [rfp_a; rfp_b] 1 = Some rfp_b
  /\ RFP.id rfp_b <> "1"
  /\ nth_error (addLineItem "9" "1" "3 core cable" 5 "km" [rfp_a; rfp_b]) 1 = Some rfp_b.
Proof.
  assert (Hi : nth_error [rfp_a; rfp_b] 1 = Some rfp_b) by reflexivity.
  assert (Hne : RFP.id rfp_b <> "1") by (simpl; discriminate).
  split; [exact Hi | split; [exact Hne |]].
  apply (proj1 (proj2 (writes_leave_other_rfps_unchanged "1" [rfp_a; rfp_b] 1 rfp_b Hi Hne))).
Defined.

Lemma find_Some_first {A : Type} (f : A -> bool) (l : list A) (x : A) :
  List.find f l = Some x <->
  exists before after,
    l = before ++ x :: after /\ f x = true /\ Forall (fun y => f y = false) before.
Proof.
  split.
  - induction l as [|y l IH]; simpl; [discriminate |].
    destruct (f y) eqn:Hy.
    + intros [= ->]. exists [], l. repeat split; [exact Hy | constructor].
    + intros Hx. destruct (IH Hx) as (before & after & -> & Hfx & Hall).
      exists (y :: before), after. repeat split; [exact Hfx |].
      constructor; assumption.
  - intros (before & after & -> & Hfx & Hall).
    induction Hall as [|y before Hy _ IH]; simpl.
    + rewrite Hfx. reflexivity.
    + rewrite Hy. exact IH.
Qed.

Lemma find_None_all {A : Type} (f : A -> bool) (l : list A) :
  List.find f l = None <-> Forall (fun y => f y = false) l.
Proof.
  induction l as [|y l IH]; simpl.
  - split; [constructor | reflexivity].
  - destruct (f y) eqn:Hy.
    + split; [discriminate |]. intros Hall. inversion Hall; congruence.
    + rewrite IH. split.
      * intros Hall. constructor; assumption.
      * intros Hall. inversion Hall; assumption.
Qed.

Lemma Forall_id_ne (id : string) (l : list RFP.t) :
  Forall (fun r => String.eqb (RFP.id r) id = false) l <->
  Forall (fun r => RFP.id r <> id) l.
Proof.
  split; intros Hall; induction Hall; constructor; try assumption;
    apply String.eqb_neq; assumption.
Qed.

(** C10. [getRFPById] returns the first record of the store whose id is
    the argument, returns [undefined] exactly when no record has that id,
    leaves the store as it is, and the detail page shows its not-found
    card exactly in the absent case (the record itself otherwise). *)
Theorem getRFPById_first_match_or_absent (id : string) (rfps : list RFP.t) :
  (forall rfp,
      getRFPById id rfps = Some rfp <->
      exists before after,
        rfps = before ++ rfp :: after
        /\ RFP.id rfp = id
        /\ Forall (fun r => RFP.id r <> id) before)
  /\ (getRFPById id rfps = None <-> Forall (fun r => RFP.id r <> id) rfps)
  /\ snd (getRFPById_call id rfps) = rfps
  /\ (RFPDetail.render id rfps = RFPDetail.NotFound <-> getRFPById id rfps = None)
  /\ (forall rfp,
        RFPDetail.render id rfps = RFPDetail.Detail rfp <->
        getRFPById id rfps = Some rfp).
Proof.
  unfold getRFPById_call, RFPDetail.render, getRFPById. repeat split.
  - intros Hf. apply find_Some_first in Hf as (before & after & -> & Hx & Hall).
    exists before, after. repeat split.
    + apply String.eqb_eq, Hx.
    + apply Forall_id_ne, Hall.
  - intros (before & after & -> & Hx & Hall). apply find_Some_first.
    exists before, after. repeat split.
    + apply String.eqb_eq, Hx.
    + apply Forall_id_ne, Hall.
  - intros Hn. apply Forall_id_ne, find_None_all, Hn.
  - intros Hall. apply find_None_all, Forall_id_ne, Hall.
  - destruct (List.find _ rfps); [discriminate | reflexivity].
  - destruct (List.find _ rfps); [discriminate | reflexivity].
  - destruct (List.find _ rfps); [| discriminate]. intros [= ->]. reflexivity.
  - intros ->. reflexivity.
Qed.

Lemma getRFPById_first_match_or_absent_witness :
  getRFPById "2" [rfp_a; rfp_b] = Some rfp_b
  /\ getRFPById "3" [rfp_a; rfp_b] = None
  /\ RFPDetail.render "3" [rfp_a; rfp_b] = RFPDetail.NotFound.
Proof.
  pose proof (getRFPById_first_match_or_absent "2" [rfp_a; rfp_b]) as (Hfirst & _).
  pose proof (getRFPById_first_match_or_absent "3" [rfp_a; rfp_b])
    as (_ & Habsent & _ & Hview & _).
  assert (Hnone : getRFPById "3" [rfp_a; rfp_b] = None).
  { apply Habsent. repeat constructor; simpl; discriminate. }
  split; [| split; [exact Hnone | apply Hview, Hnone]].
  apply Hfirst. exists [rfp_a], []. repeat split.
  repeat constructor; simpl; discriminate.
Defined.

End RFPFacts.

Module WorkflowFacts.
Import Scenarios.
Import Workflow.





(** Once [final_response] is set to a truthy value the page renders no
    "Execute Next Step" button. *)
Lemma no_execute_button_when_completed (isExecuting : bool) (w : WorkflowProgress.t) :
  truthy_opt (WorkflowProgress.final_response w) = true ->
  actionCard isExecuting w = None /\ canExecute isExecuting w = false.
Proof.
  intros Ht. unfold canExecute, actionCard. rewrite Ht. simpl. split; reflexivity.
Qed.

End WorkflowFacts.

Module MatchingFacts.
Import Scenarios.
Import MatchingEngine.

(** Lexical order on strings: [String.leb] against the strict order of the
    standard library. *)
Lemma leb_iff (a b : string) :
  String.leb a b = true <-> a = b \/ OrderedTypeEx.String_as_OT.lt a b.
Proof.
  unfold String.leb.
  pose proof (OrderedTypeEx.String_as_OT.cmp_eq a b) as He.
  pose proof (OrderedTypeEx.String_as_OT.cmp_lt a b) as Hl.
  unfold OrderedTypeEx.String_as_OT.cmp in He, Hl.
  destruct (String.compare a b) eqn:Hc.
  - split; [intros _; left; apply He; reflexivity | reflexivity].
  - split; [intros _; right; apply Hl; reflexivity | reflexivity].
  - split; [discriminate |].
    intros [Heq | Hlt].
    + apply He in Heq. discriminate Heq.
    + apply Hl in Hlt. discriminate Hlt.
Qed.

Lemma leb_trans (a b c : string) :
  String.leb a b = true -> String.leb b c = true -> String.leb a c = true.
Proof.
  rewrite !leb_iff. intros [-> | Hab] [-> | Hbc]; auto.
  right. eapply OrderedTypeEx.String_as_OT.lt_trans; eassumption.
Qed.

Lemma rank_leb_iff (a b : MatchCandidate.t) :
  rank_leb a b = true <-> ranks_before a b.
Proof.
  unfold rank_leb, ranks_before.
  destruct (Qcompare_spec (MatchCandidate.match_percent b) (MatchCandidate.match_percent a))
    as [He | Hl | Hg].
  - split.
    + intros Hs. right. split; [symmetry; exact He | exact Hs].
    + intros [Hl | [_ Hs]]; [| exact Hs]. rewrite He in Hl.
      exfalso. exact (Qlt_irrefl _ Hl).
  - split; [intros _; left; exact Hl | reflexivity].
  - split; [discriminate |].
    intros [Hl | [He _]].
    + exfalso. exact (Qlt_irrefl _ (Qlt_trans _ _ _ Hl Hg)).
    + rewrite He in Hg. exfalso. exact (Qlt_irrefl _ Hg).
Qed.

Lemma ranks_before_total (a b : MatchCandidate.t) :
  rank_leb a b = false -> ranks_before b a.
Proof.
  unfold rank_leb, ranks_before.
  destruct (Qcompare_spec (MatchCandidate.match_percent b) (MatchCandidate.match_percent a))
    as [He | Hl | Hg].
  - intros Hs. right. split; [exact He |].
    destruct (String.leb_total (MatchCandidate.sku a) (MatchCandidate.sku b)) as [H | H];
      [congruence | exact H].
  - discriminate.
  - intros _. left. exact Hg.
Qed.

Lemma ranks_before_trans (a b c : MatchCandidate.t) :
  ranks_before a b -> ranks_before b c -> ranks_before a c.
Proof.
  unfold ranks_before.
  intros [Hab | [Eab Sab]] [Hbc | [Ebc Sbc]].
  - left. lra.
  - left. lra.
  - left. lra.
  - right. split; [lra | eapply leb_trans; eassumption].
Qed.

Lemma insert_ranked_elem (c x : MatchCandidate.t) (l : list MatchCandidate.t) :
  In x (insert_ranked c l) -> x = c \/ In x l.
Proof.
  induction l as [|d l IH]; simpl.
  - intros [<- | []]. left; reflexivity.
  - destruct (rank_leb c d).
    + intros [<- | Hin]; [left; reflexivity | right; exact Hin].
    + intros [<- | Hin]; [right; left; reflexivity |].
      destruct (IH Hin) as [-> | Hl]; [left; reflexivity | right; right; exact Hl].
Qed.

Lemma insert_ranked_sorted (c : MatchCandidate.t) (l : list MatchCandidate.t) :
  StronglySorted ranks_before l -> StronglySorted ranks_before (insert_ranked c l).
Proof.
  induction 1 as [|d l Hs IH Hd]; simpl.
  - constructor; constructor.
  - destruct (rank_leb c d) eqn:Hcd.
    + apply rank_leb_iff in Hcd.
      constructor; [constructor; assumption |].
      constructor; [exact Hcd |].
      eapply List.Forall_impl; [| exact Hd].
      intros x Hx. eapply ranks_before_trans; eassumption.
    + apply ranks_before_total in Hcd.
      constructor; [exact IH |].
      apply List.Forall_forall. intros x Hin.
      destruct (insert_ranked_elem _ _ _ Hin) as [-> | Hl]; [exact Hcd |].
      rewrite List.Forall_forall in Hd. apply Hd, Hl.
Qed.

Lemma rank_sorted (l : list MatchCandidate.t) : StronglySorted ranks_before (rank l).
Proof.
  induction l as [|c l IH]; simpl; [constructor | apply insert_ranked_sorted, IH].
Qed.

Lemma firstn_sorted (n : nat) (l : list MatchCandidate.t) :
  StronglySorted ranks_before l -> StronglySorted ranks_before (firstn n l).
Proof.
  intros Hs. rewrite <- (firstn_skipn n l) in Hs.
  apply StronglySorted_app in Hs. tauto.
Qed.

Lemma sorted_tie_break (l before between after : list MatchCandidate.t)
    (a b : MatchCandidate.t) :
  StronglySorted ranks_before l ->
  l = before ++ a :: between ++ b :: after ->
  (MatchCandidate.match_percent a == MatchCandidate.match_percent b)%Q ->
  String.leb (MatchCandidate.sku a) (MatchCandidate.sku b) = true.
Proof.
  intros Hs -> Heq.
  apply StronglySorted_app in Hs as (_ & _ & Hs).
  apply StronglySorted_inv in Hs as [_ Hall].
  rewrite List.Forall_forall in Hall.
  destruct (Hall b) as [Hlt | [_ Hleb]].
  - apply in_or_app. right. left. reflexivity.
  - rewrite Heq in Hlt. exfalso. exact (Qlt_irrefl _ Hlt).
  - exact Hleb.
Qed.

Lemma tie_scenario :
  MatchingEngine.match_item tie_target tie_item tie_catalog =
  MatchResult.mk 1
    [MatchCandidate.mk "SKU-002" (200 # 3); MatchCandidate.mk "SKU-010" (200 # 3)]
    (Some "SKU-002").
Proof. vm_compute. reflexivity. Qed.

(** C3. For every target extraction, requirement item and catalog, the
    top matches are at most three and sorted by match percentage
    descending with ties broken by ascending sku: every candidate in the
    list ranks before all the later ones, so of two candidates with the
    same percentage the earlier has the lexically smaller (or same) sku;
    on the scenario of two products tied at 200/3 percent, SKU-002 comes
    before SKU-010. *)
Theorem top_matches_ranked (target_attributes : string -> list (string * string))
    (item : RequirementItem.t) (catalog : list ProductRecord.t) :
  length (MatchResult.top_matches (match_item target_attributes item catalog)) <= 3
  /\ StronglySorted ranks_before
       (MatchResult.top_matches (match_item target_attributes item catalog))
  /\ (forall before a between b after,
        MatchResult.top_matches (match_item target_attributes item catalog) =
          before ++ a :: between ++ b :: after ->
        (MatchCandidate.match_percent a == MatchCandidate.match_percent b)%Q ->
        String.leb (MatchCandidate.sku a) (MatchCandidate.sku b) = true)
  /\ map MatchCandidate.sku
         (MatchResult.top_matches (match_item tie_target tie_item tie_catalog)) =
       ["SKU-002"; "SKU-010"].
Proof.
  assert (Hs : StronglySorted ranks_before
                 (MatchResult.top_matches (match_item target_attributes item catalog))).
  { unfold match_item; simpl. apply firstn_sorted, rank_sorted. }
  split; [| split; [exact Hs | split]].
  - unfold match_item; simpl. apply firstn_le_length.
  - intros before a between b after Heq Htie.
    eapply sorted_tie_break; eassumption.
  - rewrite tie_scenario. reflexivity.
Qed.

Lemma top_matches_ranked_witness :
  MatchResult.top_matches (match_item tie_target tie_item tie_catalog) =
    [] ++ MatchCandidate.mk "SKU-002" (200 # 3)
       :: [] ++ MatchCandidate.mk "SKU-010" (200 # 3) :: []
  /\ (200 # 3 == 200 # 3)%Q
  /\ String.leb "SKU-002" "SKU-010" = true.
Proof.
  assert (Ht : MatchResult.top_matches (match_item tie_target tie_item tie_catalog) =
               [] ++ MatchCandidate.mk "SKU-002" (200 # 3)
                  :: [] ++ MatchCandidate.mk "SKU-010" (200 # 3) :: [])
    by (vm_compute; reflexivity).
  assert (He : (200 # 3 == 200 # 3)%Q) by reflexivity.
  split; [exact Ht | split; [exact He |]].
  exact (proj1 (proj2 (proj2 (top_matches_ranked tie_target tie_item tie_catalog)))
           [] (MatchCandidate.mk "SKU-002" (200 # 3)) []
           (MatchCandidate.mk "SKU-010" (200 # 3)) [] Ht He).
Defined.

End MatchingFacts.

Module OrchestratorFacts.
Import Scenarios.
Import Orchestrator.

Section Machine.
Context {Output Bid : Type}.
Variable assemble : list (StepRecord Output) -> Bid.

Abbreviation Instance := (WorkflowInstance Output Bid).
Abbreviation Store := (gmap string (WorkflowInstance Output Bid)).
Abbreviation Invoke := (nat -> WorkflowInstance Output Bid -> Outcome Output).

Lemma executeNext_unknown (invoke : Invoke) (wid : string) (store : Store) :
  store !! wid = None ->
  executeNext assemble invoke wid store = inl NotFoundError.
Proof. intros Hn. unfold executeNext, select. rewrite Hn. reflexivity. Qed.

Lemma executeNext_completed (invoke : Invoke) (wid : string) (store : Store)
    (w : Instance) :
  store !! wid = Some w ->
  is_Some (final_response w) ->
  executeNext assemble invoke wid store = inl AlreadyCompletedError.
Proof.
  intros Hw [bid Hb]. unfold executeNext, select. rewrite Hw, Hb. reflexivity.
Qed.

Lemma executeNext_runs_current (invoke : Invoke) (wid : string) (store : Store)
    (w : Instance) (s : StepRecord Output) :
  store !! wid = Some w ->
  final_response w = None ->
  steps w !! current_step w = Some s ->
  executeNext assemble invoke wid store =
  inr (record_outcome assemble w (current_step w) s
         (invoke (current_step w) (mark_running w)),
       <[wid := record_outcome assemble w (current_step w) s
                  (invoke (current_step w) (mark_running w))]> store).
Proof.
  intros Hw Hf Hs. unfold executeNext, select. rewrite Hw, Hf, Hs. reflexivity.
Qed.

Lemma select_after_failure (wid : string) (store : Store) (w : Instance)
    (s : StepRecord Output) (message : string) :
  steps w !! current_step w = Some s ->
  select wid
    (<[wid := record_outcome assemble w (current_step w) s (Failed message)]> store) =
  inr (record_outcome assemble w (current_step w) s (Failed message),
       Some (current_step w,
             mkStep (step_name s) (agent_name s) error (output s) (summary s)
                    (Some message))).
Proof.
  intros Hs. unfold select. rewrite lookup_insert_eq. simpl.
  rewrite list_lookup_insert_eq; [reflexivity |].
  eapply lookup_lt_Some, Hs.
Qed.

Lemma start_well_formed (fresh_id : string) (store : Store) :
  well_formed (fst (start fresh_id store))
  /\ snd (start fresh_id store) !! fresh_id = Some (fst (start fresh_id store)).
Proof.
  split; [unfold well_formed; simpl; lia | apply lookup_insert_eq].
Qed.

(** A call that is not refused keeps the invariant, moves [current_step]
    by at most one, and leaves the other workflows of the store alone. *)
Lemma executeNext_invariant (invoke : Invoke) (wid : string) (store store' : Store)
    (w w' : Instance) :
  store !! wid = Some w ->
  well_formed w ->
  executeNext assemble invoke wid store = inr (w', store') ->
  well_formed w'
  /\ store' !! wid = Some w'
  /\ current_step w <= current_step w' <= S (current_step w)
  /\ length (steps w') = length (steps w)
  /\ forall other, other <> wid -> store' !! other = store !! other.
Proof.
  intros Hw Hwf. unfold executeNext, select. rewrite Hw.
  unfold well_formed in Hwf.
  destruct (final_response w) eqn:Hf; [discriminate |].
  destruct (lookup_lt_is_Some_2 _ _ Hwf) as [s Hs]. rewrite Hs. simpl.
  intros [= <- <-].
  split; [| split; [apply lookup_insert_eq | split; [| split]]].
  - unfold well_formed.
    destruct (invoke (current_step w) (mark_running w)) as [out text | message];
      cbn [record_outcome final_response current_step steps];
      rewrite length_insert.
    + destruct (Nat.eqb_spec (S (current_step w)) (length (steps w))); lia.
    + exact Hwf.
  - destruct (invoke (current_step w) (mark_running w)); simpl; lia.
  - destruct (invoke (current_step w) (mark_running w)); simpl;
      apply length_insert.
  - intros other Hne. apply lookup_insert_ne. congruence.
Qed.

Lemma final_response_last_step (w : Instance) (s : StepRecord Output)
    (out : Output) (text : string) :
  S (current_step w) = total_steps w ->
  is_Some (final_response
             (record_outcome assemble w (current_step w) s (Succeeded out text))).
Proof.
  intros Hlast. unfold record_outcome, total_steps in *. cbn [final_response].
  rewrite length_insert, <- Hlast, Nat.eqb_refl. eexists; reflexivity.
Qed.

(** C4. When the step at [current_step] is the last one and its component
    succeeds, [executeNext] stores an instance whose [final_response] is
    set, and from then on every [executeNext] for that workflow fails with
    [AlreadyCompletedError], whatever the components would answer.  Any
    instance whose [final_response] is set is refused in the same way, an
    unknown workflow id is refused with [NotFoundError], and the workflow
    page renders no execute button for a workflow whose [final_response]
    is set. *)
Theorem last_step_completes_workflow (invoke : Invoke) (wid : string) (store : Store)
    (w : Instance) (out : Output) (text : string) :
  store !! wid = Some w ->
  final_response w = None ->
  S (current_step w) = total_steps w ->
  invoke (current_step w) (mark_running w) = Succeeded out text ->
  (exists w',
      executeNext assemble invoke wid store = inr (w', <[wid := w']> store)
      /\ is_Some (final_response w')
      /\ forall invoke', executeNext assemble invoke' wid (<[wid := w']> store) =
                         inl AlreadyCompletedError)
  /\ (forall invoke' wid' (store' : Store),
        store' !! wid' = None ->
        executeNext assemble invoke' wid' store' = inl NotFoundError)
  /\ (forall invoke' wid' (store' : Store) w',
        store' !! wid' = Some w' ->
        is_Some (final_response w') ->
        executeNext assemble invoke' wid' store' = inl AlreadyCompletedError)
  /\ (forall isExecuting page,
        truthy_opt (WorkflowProgress.final_response page) = true ->
        Workflow.canExecute isExecuting page = false).
Proof.
  intros Hw Hf Hlast Hok.
  assert (Hlt : current_step w < length (steps w)).
  { unfold total_steps in Hlast. lia. }
  destruct (lookup_lt_is_Some_2 _ _ Hlt) as [s Hs].
  split; [| split; [| split]].
  - exists (record_outcome assemble w (current_step w) s (Succeeded out text)).
    split; [| split].
    + rewrite (executeNext_runs_current invoke wid store w s Hw Hf Hs), Hok.
      reflexivity.
    + apply final_response_last_step, Hlast.
    + intros invoke'. eapply executeNext_completed.
      * apply lookup_insert_eq.
      * apply final_response_last_step, Hlast.
  - intros invoke' wid' store'. apply executeNext_unknown.
  - intros invoke' wid' store' w'. apply executeNext_completed.
  - intros isExecuting page Ht.
    apply (WorkflowFacts.no_execute_button_when_completed isExecuting page Ht).
Qed.

(** C5. When the component of the step at [current_step] fails,
    [executeNext] leaves [current_step] where it was, puts that step in
    status error with the error text and sets no final response; the next
    call selects the step at the same index, of the same name, and if its
    component then succeeds the step is completed and [current_step] is
    one more.  When the component succeeds at once, the step is completed
    and [current_step] advances by exactly one. *)
Theorem failed_step_is_retried (invoke : Invoke) (wid : string) (store : Store)
    (w : Instance) (s : StepRecord Output) (message : string) :
  store !! wid = Some w ->
  final_response w = None ->
  steps w !! current_step w = Some s ->
  invoke (current_step w) (mark_running w) = Failed message ->
  (exists w',
      executeNext assemble invoke wid store = inr (w', <[wid := w']> store)
      /\ current_step w' = current_step w
      /\ final_response w' = None
      /\ (exists s',
            steps w' !! current_step w = Some s'
            /\ status s' = error
            /\ error_text s' = Some message
            /\ step_name s' = step_name s
            /\ select wid (<[wid := w']> store) = inr (w', Some (current_step w, s')))
      /\ forall invoke' out text,
           invoke' (current_step w) (mark_running w') = Succeeded out text ->
           exists w'',
             executeNext assemble invoke' wid (<[wid := w']> store) =
               inr (w'', <[wid := w'']> (<[wid := w']> store))
             /\ current_step w'' = S (current_step w)
             /\ (status <$> steps w'' !! current_step w) = Some completed)
  /\ (forall invoke' out text,
        invoke' (current_step w) (mark_running w) = Succeeded out text ->
        exists w',
          executeNext assemble invoke' wid store = inr (w', <[wid := w']> store)
          /\ current_step w' = S (current_step w)
          /\ (status <$> steps w' !! current_step w) = Some completed).
Proof.
  intros Hw Hf Hs Hfail.
  assert (Hlt : current_step w < length (steps w)) by (eapply lookup_lt_Some, Hs).
  pose (s1 := mkStep (step_name s) (agent_name s) error (output s) (summary s)
                     (Some message)).
  pose (w1 := record_outcome assemble w (current_step w) s (Failed message)).
  assert (Hs1 : steps w1 !! current_step w1 = Some s1).
  { apply list_lookup_insert_eq, Hlt. }
  split.
  - exists w1. split; [| split; [| split; [| split]]].
    + rewrite (executeNext_runs_current invoke wid store w s Hw Hf Hs), Hfail.
      reflexivity.
    + reflexivity.
    + reflexivity.
    + exists s1. split; [exact Hs1 |]. repeat split.
      apply select_after_failure, Hs.
    + intros invoke' out text Hok.
      exists (record_outcome assemble w1 (current_step w1) s1 (Succeeded out text)).
      split; [| split].
      * rewrite (executeNext_runs_current invoke' wid (<[wid := w1]> store) w1 s1
                   (lookup_insert_eq _ _ _) eq_refl Hs1).
        change (current_step w1) with (current_step w).
        rewrite Hok. reflexivity.
      * reflexivity.
      * unfold record_outcome at 1. cbn [steps].
        change (current_step w1) with (current_step w).
        rewrite list_lookup_insert_eq; [reflexivity |].
        unfold w1, record_outcome. cbn [steps]. rewrite length_insert. exact Hlt.
  - intros invoke' out text Hok.
    exists (record_outcome assemble w (current_step w) s (Succeeded out text)).
    split; [| split].
    + rewrite (executeNext_runs_current invoke' wid store w s Hw Hf Hs), Hok.
      reflexivity.
    + reflexivity.
    + unfold record_outcome. cbn [steps].
      rewrite list_lookup_insert_eq; [reflexivity | exact Hlt].
Qed.

End Machine.

Lemma last_step_completes_workflow_witness :
  ({["wf-1" := at_last_step]} : gmap string _) !! "wf-1" = Some at_last_step
  /\ final_response at_last_step = None
  /\ S (current_step at_last_step) = total_steps at_last_step
  /\ always_ok (current_step at_last_step) (mark_running at_last_step) =
       Succeeded "done" "ok"
  /\ exists w',
       executeNext count_completed always_ok "wf-1" {["wf-1" := at_last_step]} =
         inr (w', <["wf-1" := w']> {["wf-1" := at_last_step]})
       /\ is_Some (final_response w')
       /\ forall invoke',
            executeNext count_completed invoke' "wf-1"
              (<["wf-1" := w']> {["wf-1" := at_last_step]}) =
            inl AlreadyCompletedError.
Proof.
  assert (H1 : ({["wf-1" := at_last_step]} : gmap string _) !! "wf-1" =
               Some at_last_step) by apply lookup_singleton_eq.
  assert (H2 : final_response at_last_step = None) by reflexivity.
  assert (H3 : S (current_step at_last_step) = total_steps at_last_step)
    by reflexivity.
  assert (H4 : always_ok (current_step at_last_step) (mark_running at_last_step) =
               Succeeded "done" "ok") by reflexivity.
  repeat (split; [assumption |]).
  exact (proj1 (last_step_completes_workflow count_completed always_ok "wf-1"
                  {["wf-1" := at_last_step]} at_last_step "done" "ok" H1 H2 H3 H4)).
Defined.

Lemma failed_step_is_retried_witness :
  ({["wf-2" := in_matching]} : gmap string _) !! "wf-2" = Some in_matching
  /\ final_response in_matching = None
  /\ steps in_matching !! current_step in_matching =
       Some (mkStep "matching" EmptyString pending None None None)
  /\ always_down (current_step in_matching) (mark_running in_matching) =
       Failed "service unavailable"
  /\ exists w',
       executeNext count_completed always_down "wf-2" {["wf-2" := in_matching]} =
         inr (w', <["wf-2" := w']> {["wf-2" := in_matching]})
       /\ current_step w' = 2
       /\ final_response w' = None.
Proof.
  assert (H1 : ({["wf-2" := in_matching]} : gmap string _) !! "wf-2" =
               Some in_matching) by apply lookup_singleton_eq.
  assert (H2 : final_response in_matching = None) by reflexivity.
  assert (H3 : steps in_matching !! current_step in_matching =
               Some (mkStep "matching" EmptyString pending None None None)) by reflexivity.
  assert (H4 : always_down (current_step in_matching) (mark_running in_matching) =
               Failed "service unavailable") by reflexivity.
  repeat (split; [assumption |]).
  destruct (proj1 (failed_step_is_retried count_completed always_down "wf-2"
                     {["wf-2" := in_matching]} in_matching _ _ H1 H2 H3 H4))
    as (w' & He & Hc & Hf & _).
  exists w'. repeat split; assumption.
Defined.

End OrchestratorFacts.

Module PipelineFacts.
Import Scenarios.
Import RequirementParser.

(** The equations of a priced item (section 3), on every input of
    [price]. *)
Lemma price_equations (m : MatchResult.t) (item : RequirementItem.t)
    (unit_prices test_prices : gmap string Q)
    (applicable_tests : gmap string (gset string)) :
  let p := fst (PricingEngine.price m item unit_prices test_prices applicable_tests) in
  PricedItem.total_cost p = Qplus (PricedItem.material_cost p) (PricedItem.tests_cost p)
  /\ PricedItem.material_cost p =
       Qmult (inject_Z (Zpos (PricedItem.quantity p))) (PricedItem.unit_price p)
  /\ PricedItem.tests_cost p =
       PricingEngine.tests_cost_of test_prices (PricedItem.tests_applied p).
Proof.
  unfold PricingEngine.price.
  destruct (MatchResult.chosen_sku m) as [sku |]; simpl;
    repeat split; reflexivity.
Qed.

(** The pricing scenario of the specification: 100 units of SKU-001 at
    1500.00 with the insulation resistance test at 500.00. *)
Lemma price_scenario :
  let p :=
    fst (PricingEngine.price
           (MatchResult.mk 1 [MatchCandidate.mk "SKU-001" 100] (Some "SKU-001"))
           (RequirementItem.mk 1 "3 core copper XLPE cable" 100 "m")
           {["SKU-001" := 1500%Q]}
           {["Insulation Resistance Test" := 500%Q]}
           {["SKU-001" := {["Insulation Resistance Test"]}]}) in
  PricedItem.material_cost p = 150000%Q
  /\ PricedItem.tests_cost p = 500%Q
  /\ PricedItem.total_cost p = 150500%Q.
Proof. vm_compute. repeat split; reflexivity. Qed.

Lemma trim_left_all_space (s : string) :
  all_space s = true -> trim_left s = EmptyString.
Proof.
  induction s as [|c s IH]; simpl; [reflexivity |].
  intros [Hc Hs]%andb_prop. rewrite Hc. apply IH, Hs.
Qed.

Lemma split_fragments_all_space (s : string) :
  all_space s = true ->
  List.Forall (fun f => all_space f = true) (split_fragments s).
Proof.
  induction s as [|c s IH]; simpl.
  - intros _. constructor; [reflexivity | constructor].
  - intros [Hc Hs]%andb_prop. specialize (IH Hs).
    destruct (is_line_break c).
    + constructor; [reflexivity | exact IH].
    + destruct (split_fragments s) as [|f fs].
      * constructor; [simpl; rewrite Hc; reflexivity | constructor].
      * inversion IH as [|? ? Hf Hfs]; subst.
        constructor; [simpl; rewrite Hc, Hf; reflexivity | exact Hfs].
Qed.

Lemma parse_fragment_all_space (is_unit : string -> bool) (f : string) :
  all_space f = true ->
  parse_fragment is_unit f = (1%positive, EmptyString, EmptyString).
Proof.
  intros Hf. unfold parse_fragment, trim.
  rewrite (trim_left_all_space f Hf). reflexivity.
Qed.

Lemma parse_all_space (is_unit : string -> bool) (text : string) :
  all_space text = true -> parse is_unit text = [].
Proof.
  intros Ht. unfold parse.
  pose proof (split_fragments_all_space text Ht) as Hall.
  induction Hall as [|f fs Hf _ IH]; simpl.
  - reflexivity.
  - rewrite (parse_fragment_all_space is_unit f Hf). simpl. exact IH.
Qed.

(** C7. On empty or whitespace-only requirement text the parser returns
    the empty sequence, the final bid built from it has no technical
    items, no pricing and a total bid value of 0; and in the pricing store
    an RFP with no product rows and no test rows has material, test and
    grand totals 0. *)
Theorem blank_requirements_zero_bid
    (is_unit : string -> bool) (target_attributes : string -> list (string * string))
    (catalog : list ProductRecord.t) (unit_prices test_prices : gmap string Q)
    (applicable_tests : gmap string (gset string))
    (rfp_id rfp_title rfp_due_date text narrative_summary : string)
    (st : PricingContext.State float) (rfpId : string) :
  all_space text = true ->
  PricingContext.getProductsByRFP st rfpId = [] ->
  PricingContext.getTestsByRFP st rfpId = [] ->
  parse is_unit text = []
  /\ FinalBid.technical_items
       (Consolidation.final_bid is_unit target_attributes catalog unit_prices
          test_prices applicable_tests rfp_id rfp_title rfp_due_date text
          narrative_summary) = []
  /\ FinalBid.pricing
       (Consolidation.final_bid is_unit target_attributes catalog unit_prices
          test_prices applicable_tests rfp_id rfp_title rfp_due_date text
          narrative_summary) = []
  /\ FinalBid.total_bid_value
       (Consolidation.final_bid is_unit target_attributes catalog unit_prices
          test_prices applicable_tests rfp_id rfp_title rfp_due_date text
          narrative_summary) = 0%Q
  /\ PricingContext.getTotalMaterialCost st rfpId = 0%float
  /\ PricingContext.getTotalTestCost st rfpId = 0%float
  /\ PricingContext.getGrandTotal st rfpId = 0%float.
Proof.
  intros Ht Hp Hr.
  pose proof (parse_all_space is_unit text Ht) as Hparse.
  split; [exact Hparse |].
  unfold Consolidation.final_bid. simpl. rewrite Hparse. simpl.
  repeat (split; [reflexivity |]).
  apply PricingFacts.totals_zero_without_rows; assumption.
Qed.

Lemma blank_requirements_zero_bid_witness :
  all_space blank_text = true
  /\ PricingContext.getProductsByRFP (num := float) PricingContext.initial "RFP-1" = []
  /\ PricingContext.getTestsByRFP (num := float) PricingContext.initial "RFP-1" = []
  /\ parse (fun _ => false) blank_text = []
  /\ FinalBid.total_bid_value
       (Consolidation.final_bid (fun _ => false) (fun _ => []) [] ∅ ∅ ∅
          "RFP-2025-001" "Cables" "2025-02-15" blank_text EmptyString) = 0%Q
  /\ PricingContext.getGrandTotal (num := float) PricingContext.initial "RFP-1" = 0%float.
Proof.
  assert (Ht : all_space blank_text = true) by reflexivity.
  assert (Hp : PricingContext.getProductsByRFP (num := float)
                 PricingContext.initial "RFP-1" = []) by reflexivity.
  assert (Hr : PricingContext.getTestsByRFP (num := float)
                 PricingContext.initial "RFP-1" = []) by reflexivity.
  pose proof (blank_requirements_zero_bid (fun _ => false) (fun _ => []) [] ∅ ∅ ∅
                "RFP-2025-001" "Cables" "2025-02-15" blank_text EmptyString
                PricingContext.initial "RFP-1" Ht Hp Hr)
    as (H1 & _ & _ & H4 & _ & _ & H7).
  repeat split; assumption.
Defined.

End PipelineFacts.

(** * Further properties of the stores and pages *)

Module PricingStoreFacts.
Import PricingContext.

Section Generic.
Context {num : Type} `{Arith num}.

Lemma getTestsByRFP_addProduct (now : string) (p : ProductRow.t num)
    (st : State num) (rfpId : string) :
  getTestsByRFP (addProduct now p st) rfpId = getTestsByRFP st rfpId.
Proof. reflexivity. Qed.

Lemma getProductsByRFP_addTest (now : string) (t : TestRow.t num)
    (st : State num) (rfpId : string) :
  getProductsByRFP (addTest now t st) rfpId = getProductsByRFP st rfpId.
Proof. reflexivity. Qed.

Lemma getProductsByRFP_addProduct_other (now : string) (p : ProductRow.t num)
    (st : State num) (other : string) :
  ProductRow.rfpId p <> other ->
  getProductsByRFP (addProduct now p st) other = getProductsByRFP st other.
Proof.
  intros Hne. rewrite PricingFacts.getProductsByRFP_addProduct.
  apply String.eqb_neq in Hne. rewrite Hne. apply app_nil_r.
Qed.

Lemma getTestsByRFP_addTest_other (now : string) (t : TestRow.t num)
    (st : State num) (other : string) :
  TestRow.rfpId t <> other ->
  getTestsByRFP (addTest now t st) other = getTestsByRFP st other.
Proof.
  intros Hne. rewrite PricingFacts.getTestsByRFP_addTest.
  apply String.eqb_neq in Hne. rewrite Hne. apply app_nil_r.
Qed.

(** X1. Rows are kept per RFP: a product row or a test row added for one
    RFP leaves the product rows, the test rows and the three totals of
    every other RFP as they were. *)
Theorem adding_rows_leaves_other_rfps (now : string) (p : ProductRow.t num)
    (t : TestRow.t num) (st : State num) (other : string) :
  ProductRow.rfpId p <> other ->
  TestRow.rfpId t <> other ->
  (getProductsByRFP (addProduct now p st) other = getProductsByRFP st other
   /\ getTestsByRFP (addProduct now p st) other = getTestsByRFP st other
   /\ getTotalMaterialCost (addProduct now p st) other = getTotalMaterialCost st other
   /\ getTotalTestCost (addProduct now p st) other = getTotalTestCost st other
   /\ getGrandTotal (addProduct now p st) other = getGrandTotal st other)
  /\ (getProductsByRFP (addTest now t st) other = getProductsByRFP st other
      /\ getTestsByRFP (addTest now t st) other = getTestsByRFP st other
      /\ getTotalMaterialCost (addTest now t st) other = getTotalMaterialCost st other
      /\ getTotalTestCost (addTest now t st) other = getTotalTestCost st other
      /\ getGrandTotal (addTest now t st) other = getGrandTotal st other).
Proof.
  intros Hp Ht.
  pose proof (getProductsByRFP_addProduct_other now p st other Hp) as Ep.
  pose proof (getTestsByRFP_addTest_other now t st other Ht) as Et.
  assert (Em : getTotalMaterialCost (addProduct now p st) other =
               getTotalMaterialCost st other).
  { unfold getTotalMaterialCost. rewrite Ep. reflexivity. }
  assert (Ec : getTotalTestCost (addTest now t st) other = getTotalTestCost st other).
  { unfold getTotalTestCost. rewrite Et. reflexivity. }
  repeat split; try assumption; try reflexivity.
  - unfold getGrandTotal. rewrite Em. reflexivity.
  - unfold getGrandTotal. rewrite Ec. reflexivity.
Qed.

End Generic.
End PricingStoreFacts.

Module RFPStoreFacts.
Import RFPContext.

Lemma find_app {A : Type} (f : A -> bool) (l1 l2 : list A) :
  List.find f (l1 ++ l2) =
  match List.find f l1 with
  | Some x => Some x
  | None => List.find f l2
  end.
Proof.
  induction l1 as [|x l1 IH]; simpl; [reflexivity |].
  destruct (f x); [reflexivity | exact IH].
Qed.

(** X2. Looking a record up after [addRFP]: a record that was found
    before is still the one found, also under the id of the new record
    (an RFP added under an id in use is never returned by [getRFPById]);
    otherwise the new record is found under its id, with no line items, no
    requirements and both ready flags off. *)
Theorem getRFPById_after_addRFP (id rfpId title client dueDate : string)
    (status : RFPStatus) (rfps : list RFP.t) (wanted : string) :
  getRFPById wanted (addRFP id rfpId title client dueDate status rfps) =
    match getRFPById wanted rfps with
    | Some rfp => Some rfp
    | None =>
        if String.eqb id wanted
        then Some (RFP.mk id rfpId title client dueDate status [] [] false false)
        else None
    end
  /\ length (addRFP id rfpId title client dueDate status rfps) = S (length rfps)
  /\ firstn (length rfps) (addRFP id rfpId title client dueDate status rfps) = rfps.
Proof.
  unfold getRFPById, addRFP. split; [| split].
  - rewrite find_app. simpl. destruct (List.find _ rfps); reflexivity.
  - rewrite length_app. simpl. lia.
  - rewrite firstn_app, Nat.sub_diag, firstn_all. simpl. apply app_nil_r.
Qed.

Lemma map_id_when_unmatched (f : RFP.t -> RFP.t) (id : string) (rfps : list RFP.t) :
  getRFPById id rfps = None ->
  map (fun rfp => if String.eqb (RFP.id rfp) id then f rfp else rfp) rfps = rfps.
Proof.
  unfold getRFPById. induction rfps as [|r rfps IH]; simpl; [reflexivity |].
  destruct (String.eqb (RFP.id r) id); [discriminate |].
  intros Hn. rewrite (IH Hn). reflexivity.
Qed.

(** X3. A write for an id that no record has changes nothing: [updateRFP],
    [addLineItem] and [addRequirement] return the store as it was, without
    an error. *)
Theorem writes_for_unknown_id_change_nothing (id : string) (rfps : list RFP.t) :
  getRFPById id rfps = None ->
  (forall updates, updateRFP id updates rfps = rfps)
  /\ (forall now description quantity unit,
        addLineItem now id description quantity unit rfps = rfps)
  /\ (forall now text, addRequirement now id text rfps = rfps).
Proof.
  intros Hn. repeat split; intros;
    unfold updateRFP, addLineItem, addRequirement;
    apply (map_id_when_unmatched _ id rfps Hn).
Qed.

Lemma find_map_first (f : RFP.t -> RFP.t) (id : string) (rfps : list RFP.t) (r : RFP.t) :
  RFP.id (f r) = id ->
  getRFPById id rfps = Some r ->
  getRFPById id
    (map (fun rfp => if String.eqb (RFP.id rfp) id then f rfp else rfp) rfps) =
  Some (f r).
Proof.
  unfold getRFPById. intros Hid.
  induction rfps as [|x rfps IH]; simpl; [discriminate |].
  destruct (String.eqb (RFP.id x) id) eqn:Hx.
  - intros [= ->]. rewrite Hid, String.eqb_refl. reflexivity.
  - rewrite Hx. exact IH.
Qed.

(** X4. Reading back after [updateRFP]: when the updates leave the id
    alone (no [id] property, or the same id), the record found under the
    id afterwards is the record found before with the updates spread over
    it. *)
Theorem getRFPById_after_updateRFP (id : string) (updates : PartialRFP.t)
    (rfps : list RFP.t) (rfp : RFP.t) :
  getRFPById id rfps = Some rfp ->
  (PartialRFP.id updates = None \/ PartialRFP.id updates = Some id) ->
  getRFPById id (updateRFP id updates rfps) = Some (spread rfp updates).
Proof.
  intros Hf Hid. unfold updateRFP.
  apply (find_map_first (fun r => spread r updates) id rfps rfp); [| exact Hf].
  apply RFPFacts.find_Some_first in Hf as (_ & _ & _ & Hx & _).
  apply String.eqb_eq in Hx.
  unfold spread; simpl. destruct Hid as [-> | ->]; simpl; [exact Hx | reflexivity].
Qed.

(** X5. Reading back after [addLineItem] and [addRequirement]: the record
    found under the id has the new line item (the new requirement) after
    the ones it had, in last place, and every other field as before. *)
Theorem getRFPById_after_adding (id : string) (rfps : list RFP.t) (rfp : RFP.t) :
  getRFPById id rfps = Some rfp ->
  (forall now description quantity unit,
      getRFPById id (addLineItem now id description quantity unit rfps) =
      Some (RFP.mk (RFP.id rfp) (RFP.rfpId rfp) (RFP.title rfp) (RFP.client rfp)
              (RFP.dueDate rfp) (RFP.status rfp)
              (RFP.lineItems rfp ++ [LineItem.mk now description quantity unit])
              (RFP.requirements rfp) (RFP.readyForTechnical rfp)
              (RFP.readyForPricing rfp)))
  /\ (forall now text,
        getRFPById id (addRequirement now id text rfps) =
        Some (RFP.mk (RFP.id rfp) (RFP.rfpId rfp) (RFP.title rfp) (RFP.client rfp)
                (RFP.dueDate rfp) (RFP.status rfp) (RFP.lineItems rfp)
                (RFP.requirements rfp ++ [Requirement.mk now text])
                (RFP.readyForTechnical rfp) (RFP.readyForPricing rfp))).
Proof.
  intros Hf.
  pose proof Hf as Hx.
  apply RFPFacts.find_Some_first in Hx as (_ & _ & _ & Hx & _).
  apply String.eqb_eq in Hx.
  split; intros; unfold addLineItem, addRequirement.
  - apply (find_map_first
             (fun r => RFP.mk (RFP.id r) (RFP.rfpId r) (RFP.title r) (RFP.client r)
                         (RFP.dueDate r) (RFP.status r)
                         (RFP.lineItems r ++ [LineItem.mk now description quantity unit])
                         (RFP.requirements r) (RFP.readyForTechnical r)
                         (RFP.readyForPricing r)) id rfps rfp); simpl; assumption.
  - apply (find_map_first
             (fun r => RFP.mk (RFP.id r) (RFP.rfpId r) (RFP.title r) (RFP.client r)
                         (RFP.dueDate r) (RFP.status r) (RFP.lineItems r)
                         (RFP.requirements r ++ [Requirement.mk now text])
                         (RFP.readyForTechnical r) (RFP.readyForPricing r))
             id rfps rfp); simpl; assumption.
Qed.

Lemma spread_spread (rfp : RFP.t) (updates : PartialRFP.t) :
  spread (spread rfp updates) updates = spread rfp updates.
Proof.
  destruct updates as [a b c d e f g h i j]. unfold spread; simpl.
  destruct a, b, c, d, e, f, g, h, i, j; reflexivity.
Qed.

(** X6. [updateRFP] with the same arguments a second time changes nothing
    more, and [updateRFP] with no property to update changes nothing at
    all. *)
Theorem updateRFP_idempotent (id : string) (updates : PartialRFP.t) (rfps : list RFP.t) :
  updateRFP id updates (updateRFP id updates rfps) = updateRFP id updates rfps
  /\ updateRFP id PartialRFP.none rfps = rfps.
Proof.
  unfold updateRFP. split.
  - rewrite map_map. apply map_ext. intros rfp.
    destruct (String.eqb (RFP.id rfp) id) eqn:Hr.
    + destruct (String.eqb (RFP.id (spread rfp updates)) id);
        [apply spread_spread | reflexivity].
    + rewrite Hr. reflexivity.
  - rewrite <- (map_id rfps) at 2. apply map_ext. intros rfp.
    destruct (String.eqb (RFP.id rfp) id); [| reflexivity].
    destruct rfp; reflexivity.
Qed.

(** X7. Line items and requirements are added independently: an
    [addLineItem] and an [addRequirement], for the same RFP or for two,
    give the same store in either order. *)
Theorem addLineItem_addRequirement_commute
    (now1 id1 description : string) (quantity : float) (unit : string)
    (now2 id2 text : string) (rfps : list RFP.t) :
  addLineItem now1 id1 description quantity unit (addRequirement now2 id2 text rfps) =
  addRequirement now2 id2 text (addLineItem now1 id1 description quantity unit rfps).
Proof.
  unfold addLineItem, addRequirement. rewrite !map_map. apply map_ext. intros rfp.
  destruct (String.eqb (RFP.id rfp) id1) eqn:H1,
           (String.eqb (RFP.id rfp) id2) eqn:H2; simpl;
    rewrite ?H1, ?H2; reflexivity.
Qed.

End RFPStoreFacts.

Module AuthFacts.
Import AuthContext.

Lemma call_consistent (st : State) (c : Call) : consistent st -> consistent (call st c).
Proof.
  unfold consistent. destruct c as [user | | user | updates]; simpl; auto.
  unfold updateProfile. destruct (currentUser st) eqn:Hu; simpl; [| rewrite Hu]; auto.
Qed.

Lemma after_consistent (calls : list Call) (st : State) :
  consistent st -> consistent (fold_left call calls st).
Proof.
  revert st. induction calls as [|c calls IH]; intros st Hst; simpl;
    [exact Hst | apply IH, call_consistent, Hst].
Qed.

(** X8. Whatever sequence of [login], [logout], [register] and
    [updateProfile] calls the pages make, the provider says logged in
    exactly when it has a current user; so the profile page shows its form
    exactly when the protected routes let the visitor in. *)
Theorem logged_in_iff_current_user (calls : list Call) :
  isLoggedIn (after calls) =
    match currentUser (after calls) with Some _ => true | None => false end
  /\ Profile.showsForm (after calls) = isLoggedIn (after calls)
  /\ forall page,
       App.ProtectedRoute (isLoggedIn (after calls)) page = App.Render page <->
       Profile.showsForm (after calls) = true.
Proof.
  assert (Hc : consistent (after calls)).
  { apply after_consistent. reflexivity. }
  unfold consistent in Hc. unfold Profile.showsForm, App.ProtectedRoute.
  destruct (isLoggedIn (after calls)), (currentUser (after calls));
    try discriminate Hc; repeat split; intros; try reflexivity; discriminate.
Qed.

(** X9. [updateProfile] logs nobody in: it keeps [isLoggedIn], changes
    nothing for a visitor without a current user, and a second call with
    the same updates changes nothing more. *)
Theorem updateProfile_keeps_login (updates : PartialUser.t) (st : State) :
  isLoggedIn (updateProfile updates st) = isLoggedIn st
  /\ (currentUser st = None -> updateProfile updates st = st)
  /\ updateProfile updates (updateProfile updates st) = updateProfile updates st.
Proof.
  unfold updateProfile. destruct (currentUser st) as [user |] eqn:Hu; simpl.
  - repeat split; [discriminate |].
    destruct updates as [[n |] [e |] [r |]]; reflexivity.
  - rewrite Hu. repeat split.
Qed.

(** X10. Routing: two navigations always suffice to show a page; a
    visitor who is not logged in is shown the login page, the register
    page or the not-found page and nothing else; a logged-in visitor is
    shown the page of every protected route, and the dashboard at the
    root. *)
Theorem routes_guard_pages (path : App.RoutePath) :
  (forall isLoggedIn, exists page, App.shown 2 isLoggedIn path = Some page)
  /\ (App.shown 2 false path = Some App.LoginPage
      \/ App.shown 2 false path = Some App.RegisterPage
      \/ App.shown 2 false path = Some App.NotFoundPage)
  /\ (forall page, App.element true path = App.ProtectedRoute true page ->
                   App.shown 2 true path = Some page)
  /\ App.shown 2 true App.Root = Some App.DashboardPage.
Proof.
  split; [| split; [| split]].
  - intros [|]; destruct path; simpl; eexists; reflexivity.
  - destruct path; simpl; tauto.
  - intros page. destruct path; simpl; intros He; try discriminate He;
      injection He as ->; reflexivity.
  - reflexivity.
Qed.

Lemma split_first_no_sep (sep : ascii) (s : string) :
  ~ In sep (list_ascii_of_string (Login.split_first sep s)).
Proof.
  induction s as [|c s IH]; simpl; [tauto |].
  destruct (Ascii.eqb c sep) eqn:Hc; simpl; [tauto |].
  intros [He | Hin]; [| exact (IH Hin)].
  subst c. rewrite Ascii.eqb_refl in Hc. discriminate Hc.
Qed.

Lemma split_first_prefix (sep : ascii) (s : string) :
  s = Login.split_first sep s
  \/ exists rest, s = (Login.split_first sep s ++ String sep rest)%string.
Proof.
  induction s as [|c s IH]; simpl; [left; reflexivity |].
  destruct (Ascii.eqb c sep) eqn:Hc.
  - apply Ascii.eqb_eq in Hc. subst c. right. exists s. reflexivity.
  - destruct IH as [IH | [rest IH]].
    + left. simpl. f_equal. exact IH.
    + right. exists rest.
      change (String c s = String c (Login.split_first sep s ++ String sep rest)%string).
      f_equal. exact IH.
Qed.

(** X11. Signing in with a non-empty email and a non-empty password
    always succeeds, whatever the password: the visitor is logged in as a
    user with that email, the role "User" and as name the part of the
    email before its first [@] (a name without [@]; the whole email when
    it has none), and is sent to the dashboard, which the routes then
    show. *)
Theorem login_accepts_any_password (email password : string) (auth : State) :
  email <> EmptyString ->
  password <> EmptyString ->
  exists name,
    Login.handleSubmit email password auth =
      (mkState true (Some (User.mk name email "User")),
       Effects.mk [ToastSuccess "Successfully logged in!"] (Some App.DashboardPath))
    /\ ~ In "@"%char (list_ascii_of_string name)
    /\ (email = name \/ exists rest, email = (name ++ String "@"%char rest)%string)
    /\ App.shown 2 (isLoggedIn (fst (Login.handleSubmit email password auth)))
         App.DashboardPath = Some App.DashboardPage
    /\ forall other,
         other <> EmptyString ->
         Login.handleSubmit email other auth = Login.handleSubmit email password auth.
Proof.
  intros He Hp. apply String.eqb_neq in He, Hp.
  exists (Login.split_first "@"%char email).
  unfold Login.handleSubmit. rewrite He, Hp. simpl.
  split; [reflexivity | split; [apply split_first_no_sep | split]].
  - apply split_first_prefix.
  - split; [reflexivity |].
    intros other Ho. apply String.eqb_neq in Ho. rewrite Ho. reflexivity.
Qed.

(** X12. A submit of the login or the register form with an empty field,
    or of the register form with two different passwords, calls nothing:
    the visitor's state is unchanged and there is no navigation; and the
    register form logs a logged-out visitor in exactly when all five
    fields are filled and the passwords are equal. *)
Theorem forms_validate_before_calling
    (name email password confirmPassword role : string) (auth : State) :
  isLoggedIn auth = false ->
  (isLoggedIn (fst (Register.handleSubmit name email password confirmPassword role auth))
     = true <->
   name <> EmptyString /\ email <> EmptyString /\ password <> EmptyString
   /\ confirmPassword <> EmptyString /\ role <> EmptyString
   /\ password = confirmPassword)
  /\ (isLoggedIn (fst (Register.handleSubmit name email password confirmPassword role auth))
        = false ->
      fst (Register.handleSubmit name email password confirmPassword role auth) = auth
      /\ Effects.navigate
           (snd (Register.handleSubmit name email password confirmPassword role auth))
         = None)
  /\ (isLoggedIn (fst (Login.handleSubmit email password auth)) = true <->
      email <> EmptyString /\ password <> EmptyString)
  /\ (isLoggedIn (fst (Login.handleSubmit email password auth)) = false ->
      fst (Login.handleSubmit email password auth) = auth
      /\ Effects.navigate (snd (Login.handleSubmit email password auth)) = None).
Proof.
  intros Hout. unfold Register.handleSubmit, Login.handleSubmit.
  destruct (String.eqb_spec name EmptyString) as [-> | Hn];
    destruct (String.eqb_spec email EmptyString) as [-> | He];
    destruct (String.eqb_spec password EmptyString) as [-> | Hp];
    destruct (String.eqb_spec confirmPassword EmptyString) as [-> | Hc];
    destruct (String.eqb_spec role EmptyString) as [-> | Hr];
    simpl; rewrite ?Hout;
    try (destruct (String.eqb_spec password confirmPassword) as [Hpc | Hpc]; simpl);
    rewrite ?Hout;
    repeat split; intros; try tauto; try congruence; try discriminate;
    repeat match goal with H : _ /\ _ |- _ => destruct H end; try congruence.
Qed.

End AuthFacts.

Module DashboardFacts.
Import Dashboard.

Lemma run_snoc (calls : list ActivityContext.Call) (c : ActivityContext.Call) :
  ActivityContext.run (calls ++ [c]) = ActivityContext.call c (ActivityContext.run calls).
Proof. unfold ActivityContext.run. rewrite fold_left_app. reflexivity. Qed.

Lemma nth_run (calls : list ActivityContext.Call) (k : nat) :
  nth k (ActivityContext.run calls) ActivityContext.initial =
  ActivityContext.activities (firstn (length calls - k) calls).
Proof.
  revert k. induction calls as [| c calls IH] using rev_ind; intros k.
  - destruct k as [| [| k]]; reflexivity.
  - rewrite run_snoc, length_app. cbn [length]. unfold ActivityContext.call.
    destruct k as [| k].
    + rewrite Nat.sub_0_r, firstn_all2 by (rewrite length_app; cbn; lia).
      unfold ActivityContext.activities. rewrite run_snoc. reflexivity.
    + cbn [nth]. rewrite IH.
      replace (length calls + 1 - S k) with (length calls - k) by lia.
      rewrite firstn_app.
      replace (length calls - k - length calls) with 0 by lia.
      cbn [firstn]. rewrite app_nil_r. reflexivity.
Qed.

Lemma activities_snoc (calls : list ActivityContext.Call) (c : ActivityContext.Call) :
  ActivityContext.activities (calls ++ [c]) =
  ActivityContext.entry c
  :: ActivityContext.activities
       (firstn (length calls - ActivityContext.behind c) calls).
Proof.
  unfold ActivityContext.activities at 1. rewrite run_snoc.
  unfold ActivityContext.call. cbn [hd]. rewrite nth_run. reflexivity.
Qed.

Lemma activities_sublist (n : nat) (calls : list ActivityContext.Call) :
  length calls <= n ->
  sublist (ActivityContext.activities calls)
          (rev (map ActivityContext.entry calls)).
Proof.
  revert calls. induction n as [| n IH]; intros calls Hn.
  - destruct calls; [apply sublist_nil | cbn in Hn; lia].
  - destruct calls as [| c calls _] using rev_ind; [apply sublist_nil |].
    rewrite length_app in Hn. cbn in Hn.
    rewrite activities_snoc, map_app, rev_app_distr. cbn [map rev app].
    apply sublist_skip.
    set (m := length calls - ActivityContext.behind c).
    rewrite <- (firstn_skipn m calls) at 2.
    rewrite map_app, rev_app_distr. apply sublist_inserts_l, IH.
    rewrite length_firstn. lia.
Qed.

Lemma activities_fresh (calls : list ActivityContext.Call) :
  Forall (fun c => ActivityContext.behind c = 0) calls ->
  ActivityContext.activities calls = rev (map ActivityContext.entry calls).
Proof.
  induction calls as [| c calls IH] using rev_ind; intros Hall; [reflexivity |].
  apply Forall_app in Hall as [Hcalls Hc]. apply Forall_inv in Hc.
  rewrite activities_snoc, Hc, Nat.sub_0_r, firstn_all, IH by assumption.
  rewrite map_app, rev_app_distr. reflexivity.
Qed.

(** X13. The activity log after any sequence of [addActivity] calls, each
    made through a closure that may be some writes old.  The activity of
    the latest call is first and is followed by the log its closure saw,
    so a call through a closure [k] writes old drops the [k] latest
    entries; the log is always a sub-sequence of the activities of the
    calls, the latest first; the dashboard lists at most five of them;
    and when every call goes through the closure of the latest render
    nothing is dropped and the dashboard lists the five latest activities
    (all of them when there are fewer), the latest first.  The run of an
    agent on the agents page is two such calls, the timer's one write
    behind, and so leaves "Agent Completed" in front of the log as it was
    before the run. *)
Theorem recent_activity_latest_first (calls : list ActivityContext.Call) :
  (forall c,
      ActivityContext.activities (calls ++ [c]) =
      ActivityContext.entry c
      :: ActivityContext.activities
           (firstn (length calls - ActivityContext.behind c) calls))
  /\ sublist (ActivityContext.activities calls)
             (rev (map ActivityContext.entry calls))
  /\ length (recentActivity (ActivityContext.activities calls)) <= 5
  /\ (Forall (fun c => ActivityContext.behind c = 0) calls ->
      ActivityContext.activities calls = rev (map ActivityContext.entry calls)
      /\ recentActivity (ActivityContext.activities calls) =
           firstn 5 (rev (map ActivityContext.entry calls))
      /\ length (recentActivity (ActivityContext.activities calls)) =
           Nat.min 5 (length calls))
  /\ (forall clock1 clock2 agentId agents agent later,
        List.find (fun a => String.eqb (Agent.id a) agentId) agents = Some agent ->
        let started :=
          ActivityContext.mkCall clock1 "Agent Started"
            (Agent.name agent ++ " is now running") 0 in
        let completed :=
          ActivityContext.mkCall clock2 "Agent Completed"
            (Agent.name agent ++ " finished successfully") 1 in
        match Agents.handleRunAgent clock1 agentId
                (Agents.mkState agents (ActivityContext.activities calls)) with
        | (clicked, _, Some timer) =>
            Agents.activities clicked =
              ActivityContext.activities (calls ++ [started])
            /\ Agents.activities (fst (Agents.timeout clock2 timer later)) =
                 ActivityContext.activities (calls ++ [started; completed])
            /\ ActivityContext.activities (calls ++ [started; completed]) =
                 ActivityContext.entry completed :: ActivityContext.activities calls
        | (_, _, None) => False
        end).
Proof.
  split; [intros c; apply activities_snoc |].
  split; [apply (activities_sublist (length calls)); lia |].
  split; [unfold recentActivity; rewrite length_firstn; lia |].
  split.
  - intros Hall. rewrite (activities_fresh calls Hall).
    split; [reflexivity | split; [reflexivity |]].
    unfold recentActivity. rewrite length_firstn, length_rev, length_map.
    reflexivity.
  - intros clock1 clock2 agentId agents agent later Hfind started completed.
    assert (Hboth : ActivityContext.activities (calls ++ [started; completed]) =
                    ActivityContext.entry completed
                    :: ActivityContext.activities calls).
    { change (calls ++ [started; completed])
        with (calls ++ [started] ++ [completed]).
      rewrite app_assoc, activities_snoc, length_app. cbn [length].
      subst completed. cbn [ActivityContext.behind].
      replace (length calls + 1 - 1) with (length calls) by lia.
      rewrite firstn_app, firstn_all, Nat.sub_diag. cbn [firstn].
      rewrite app_nil_r. reflexivity. }
    unfold Agents.handleRunAgent. cbn [Agents.agents Agents.activities].
    rewrite Hfind. cbn [Agents.activities Agents.timeout fst Agents.seen Agents.agent].
    split; [| split; [| exact Hboth]].
    + rewrite activities_snoc. subst started. cbn [ActivityContext.behind].
      rewrite Nat.sub_0_r, firstn_all. reflexivity.
    + rewrite Hboth. reflexivity.
Qed.

Lemma count_by_status (rfps : list RFP.t) :
  length (List.filter (fun rfp => status_eqb (RFP.status rfp) Open) rfps)
  + length (List.filter (fun rfp => status_eqb (RFP.status rfp) InProgress) rfps)
  + length (List.filter (fun rfp => status_eqb (RFP.status rfp) Submitted) rfps)
  = length rfps.
Proof.
  induction rfps as [|r rfps IH]; simpl; [reflexivity |].
  destruct (RFP.status r); simpl; lia.
Qed.

(** X14. The dashboard's counts: the open and the submitted RFPs are
    disjoint parts of all RFPs, the rest being the ones in progress, so
    the two counts add up to at most the total; and a new RFP raises the
    total by one and the count of its own status by one. *)
Theorem dashboard_counts (rfps : list RFP.t) :
  openRFPs rfps + submittedRFPs rfps
    + length (List.filter (fun rfp => status_eqb (RFP.status rfp) InProgress) rfps)
    = totalRFPs rfps
  /\ openRFPs rfps + submittedRFPs rfps <= totalRFPs rfps
  /\ forall id rfpId title client dueDate status,
       totalRFPs (RFPContext.addRFP id rfpId title client dueDate status rfps) =
         S (totalRFPs rfps)
       /\ openRFPs (RFPContext.addRFP id rfpId title client dueDate status rfps) =
            openRFPs rfps + (if status_eqb status Open then 1 else 0)
       /\ submittedRFPs (RFPContext.addRFP id rfpId title client dueDate status rfps) =
            submittedRFPs rfps + (if status_eqb status Submitted then 1 else 0).
Proof.
  pose proof (count_by_status rfps) as Hc.
  unfold openRFPs, submittedRFPs, totalRFPs, RFPContext.addRFP.
  split; [lia | split; [lia |]].
  intros id rfpId title client dueDate status.
  rewrite length_app, !List.filter_app, !length_app. simpl.
  destruct status; simpl; lia.
Qed.

End DashboardFacts.

Module AgentsFacts.
Import Agents.

Lemma find_withStatus (wanted agentId : string) (status : AgentStatus)
    (agents : list Agent.t) :
  List.find (fun a => String.eqb (Agent.id a) wanted) (withStatus agentId status agents) =
  option_map
    (fun a => if String.eqb (Agent.id a) agentId
              then Agent.mk (Agent.id a) (Agent.name a) (Agent.description a) status
              else a)
    (List.find (fun a => String.eqb (Agent.id a) wanted) agents).
Proof.
  unfold withStatus. induction agents as [|a agents IH]; simpl; [reflexivity |].
  destruct (String.eqb (Agent.id a) agentId) eqn:Ha; simpl;
    destruct (String.eqb (Agent.id a) wanted); simpl; rewrite ?Ha; auto.
Qed.

(** X15. Running an agent: the click marks it running and logs "Agent
    Started"; when the timer fires, the agents and the activity log are
    set from what the page saw at the click, whatever they are by then.
    So the agent ends completed, but the "Agent Started" entry and every
    activity logged since the click are gone from the log, which holds the
    "Agent Completed" entry in front of the activities of before the
    click.  A click for an id that no agent has does nothing. *)
Theorem run_agent_then_timeout (click fire : Clock.t) (agentId : string)
    (st : State) (found : Agent.t) :
  List.find (fun a => String.eqb (Agent.id a) agentId) (agents st) = Some found ->
  exists timer,
    handleRunAgent click agentId st =
      (mkState (withStatus agentId Running (agents st))
               (Activity.mk (Clock.now click) (Clock.date click) "Agent Started"
                  (Agent.name found ++ " is now running")%string :: activities st),
       [ToastInfo (Agent.name found ++ " started")%string],
       Some timer)
    /\ forall later,
         fst (timeout fire timer later) =
         mkState (withStatus agentId Completed (agents st))
                 (Activity.mk (Clock.now fire) (Clock.date fire) "Agent Completed"
                    (Agent.name found ++ " finished successfully")%string
                  :: activities st).
Proof.
  intros Hf. exists (mkTimer st agentId found).
  unfold handleRunAgent. rewrite Hf. split; [reflexivity |].
  intros later. reflexivity.
Qed.

(** X16. Two agents run one after the other before the first timer
    fires: once both timers have fired, the second agent is completed but
    the first one is back to running, with its run button disabled, and
    no timer is left to complete it. *)
Theorem overlapping_runs_leave_first_running
    (click1 click2 fire1 fire2 : Clock.t) (first second : string) (st : State)
    (a b : Agent.t) :
  first <> second ->
  List.find (fun x => String.eqb (Agent.id x) first) (agents st) = Some a ->
  List.find (fun x => String.eqb (Agent.id x) second) (agents st) = Some b ->
  exists timer1 timer2,
    snd (handleRunAgent click1 first st) = Some timer1
    /\ snd (handleRunAgent click2 second (fst (fst (handleRunAgent click1 first st)))) =
         Some timer2
    /\ agents
         (fst (timeout fire2 timer2
                 (fst (timeout fire1 timer1
                         (fst (fst (handleRunAgent click2 second
                                      (fst (fst (handleRunAgent click1 first st)))))))))) =
       withStatus second Completed (withStatus first Running (agents st))
    /\ List.Forall
         (fun x =>
            (Agent.id x = first -> Agent.status x = Running /\ runDisabled x = true)
            /\ (Agent.id x = second -> Agent.status x = Completed))
         (withStatus second Completed (withStatus first Running (agents st))).
Proof.
  intros Hne Ha Hb.
  assert (H1 : handleRunAgent click1 first st =
               (mkState (withStatus first Running (agents st))
                        (ActivityContext.addActivity click1 "Agent Started"
                           (Agent.name a ++ " is now running") (activities st)),
                [ToastInfo (Agent.name a ++ " started")],
                Some (mkTimer st first a))).
  { unfold handleRunAgent. rewrite Ha. reflexivity. }
  rewrite H1. cbn [fst snd].
  assert (Hb' : List.find (fun x => String.eqb (Agent.id x) second)
                  (withStatus first Running (agents st)) =
                Some (if String.eqb (Agent.id b) first
                      then Agent.mk (Agent.id b) (Agent.name b) (Agent.description b) Running
                      else b)).
  { rewrite find_withStatus, Hb. reflexivity. }
  unfold handleRunAgent at 1 2. cbn [agents]. rewrite Hb'. cbn [fst snd].
  eexists. eexists. split; [reflexivity | split; [reflexivity | split; [reflexivity |]]].
  unfold withStatus. rewrite map_map. apply List.Forall_forall.
  intros x Hin. apply in_map_iff in Hin as (y & <- & _).
  destruct (String.eqb_spec (Agent.id y) first) as [Hy1 | Hy1]; simpl;
    destruct (String.eqb_spec (Agent.id y) second) as [Hy2 | Hy2]; simpl;
    unfold runDisabled; simpl; repeat split; intros; congruence.
Qed.

End AgentsFacts.

Module RFPPageFacts.
Import RFPDetailHandlers.

Section Handlers.
Variable parseInt : string -> float.

(** X17. Adding a line item from the detail page: with the description,
    the quantity or the unit left empty nothing is stored and the form
    stays; with all three filled, the RFP shown gets one more line item in
    last place, with the quantity [parseInt] reads, one activity is
    logged in front, and the three fields are cleared while the
    requirement text is kept. *)
Theorem handleAddLineItem_effect (now : string) (clock : Clock.t) (rfp : RFP.t)
    (form : Form) (st : Stores.t) :
  RFPContext.getRFPById (RFP.id rfp) (Stores.rfps st) = Some rfp ->
  ((lineItemDesc form = EmptyString \/ lineItemQty form = EmptyString
    \/ lineItemUnit form = EmptyString) ->
   handleAddLineItem parseInt now clock rfp form st =
     (st, form, [ToastError "Please fill all line item fields"]))
  /\ (lineItemDesc form <> EmptyString -> lineItemQty form <> EmptyString ->
      lineItemUnit form <> EmptyString ->
      RFPContext.getRFPById (RFP.id rfp)
        (Stores.rfps (fst (fst (handleAddLineItem parseInt now clock rfp form st)))) =
        Some (RFP.mk (RFP.id rfp) (RFP.rfpId rfp) (RFP.title rfp) (RFP.client rfp)
                (RFP.dueDate rfp) (RFP.status rfp)
                (RFP.lineItems rfp ++
                 [LineItem.mk now (lineItemDesc form) (parseInt (lineItemQty form))
                              (lineItemUnit form)])
                (RFP.requirements rfp) (RFP.readyForTechnical rfp)
                (RFP.readyForPricing rfp))
      /\ Stores.activities (fst (fst (handleAddLineItem parseInt now clock rfp form st))) =
           Activity.mk (Clock.now clock) (Clock.date clock) "Line Item Added"
             ("Added line item to " ++ RFP.rfpId rfp)%string
           :: Stores.activities st
      /\ snd (fst (handleAddLineItem parseInt now clock rfp form st)) =
           mkForm EmptyString EmptyString EmptyString (requirementText form)).
Proof.
  intros Hf. unfold handleAddLineItem. split.
  - intros [-> | [-> | ->]]; simpl; rewrite ?orb_true_r; reflexivity.
  - intros Hd Hq Hu. apply String.eqb_neq in Hd, Hq, Hu. rewrite Hd, Hq, Hu. simpl.
    split; [| split; reflexivity].
    unfold RFPContext.addLineItem.
    apply (RFPStoreFacts.find_map_first
             (fun r => RFP.mk (RFP.id r) (RFP.rfpId r) (RFP.title r) (RFP.client r)
                         (RFP.dueDate r) (RFP.status r)
                         (RFP.lineItems r ++
                          [LineItem.mk now (lineItemDesc form)
                             (parseInt (lineItemQty form)) (lineItemUnit form)])
                         (RFP.requirements r) (RFP.readyForTechnical r)
                         (RFP.readyForPricing r))
             (RFP.id rfp) (Stores.rfps st) rfp eq_refl Hf).
Qed.

End Handlers.

Lemma updateRFP_flags (id : string) (technical pricing : option bool) (rfps : list RFP.t) :
  (technical = None \/ technical = Some true) ->
  (pricing = None \/ pricing = Some true) ->
  List.Forall2
    (fun before after =>
       RFP.id after = RFP.id before
       /\ RFP.status after = RFP.status before
       /\ RFP.lineItems after = RFP.lineItems before
       /\ RFP.requirements after = RFP.requirements before
       /\ (RFP.readyForTechnical before = true -> RFP.readyForTechnical after = true)
       /\ (RFP.readyForPricing before = true -> RFP.readyForPricing after = true))
    rfps
    (RFPContext.updateRFP id
       (PartialRFP.mk None None None None None None None None technical pricing) rfps).
Proof.
  intros Ht Hp. unfold RFPContext.updateRFP.
  induction rfps as [|r rfps IH]; simpl; constructor; [| exact IH].
  destruct (String.eqb (RFP.id r) id); [| tauto].
  unfold RFPContext.spread; simpl.
  destruct Ht as [-> | ->], Hp as [-> | ->]; simpl; tauto.
Qed.

Lemma Forall2_same {A : Type} (P : A -> A -> Prop) (l : list A) :
  (forall x, P x x) -> List.Forall2 P l l.
Proof. intros HP. induction l; constructor; auto. Qed.

(** X18. The agent actions of the detail page only ever switch a ready
    flag on: whatever the action text, every RFP keeps its place, id,
    status, line items and requirements, and a flag that was on stays on;
    an action other than "technical" and "pricing" changes nothing and
    logs nothing; and after "technical" the RFP shown is found with its
    technical flag on. *)
Theorem handleAgentAction_only_sets_flags (clock : Clock.t) (rfp : RFP.t)
    (action : string) (st : Stores.t) :
  RFPContext.getRFPById (RFP.id rfp) (Stores.rfps st) = Some rfp ->
  List.Forall2
    (fun before after =>
       RFP.id after = RFP.id before
       /\ RFP.status after = RFP.status before
       /\ RFP.lineItems after = RFP.lineItems before
       /\ RFP.requirements after = RFP.requirements before
       /\ (RFP.readyForTechnical before = true -> RFP.readyForTechnical after = true)
       /\ (RFP.readyForPricing before = true -> RFP.readyForPricing after = true))
    (Stores.rfps st) (Stores.rfps (fst (handleAgentAction clock rfp action st)))
  /\ (action <> "technical" -> action <> "pricing" ->
      handleAgentAction clock rfp action st = (st, []))
  /\ option_map RFP.readyForTechnical
       (RFPContext.getRFPById (RFP.id rfp)
          (Stores.rfps (fst (handleAgentAction clock rfp "technical" st)))) = Some true.
Proof.
  intros Hf. unfold handleAgentAction. split; [| split].
  - destruct (String.eqb action "technical"); [| destruct (String.eqb action "pricing")];
      simpl.
    + apply updateRFP_flags; auto.
    + apply updateRFP_flags; auto.
    + apply Forall2_same. tauto.
  - intros Ht Hp. apply String.eqb_neq in Ht, Hp. rewrite Ht, Hp. reflexivity.
  - simpl. unfold RFPContext.updateRFP.
    rewrite (RFPStoreFacts.find_map_first
               (fun r => RFPContext.spread r
                           (PartialRFP.mk None None None None None None None None
                              (Some true) None))
               (RFP.id rfp) (Stores.rfps st) rfp eq_refl Hf).
    reflexivity.
Qed.

End RFPPageFacts.

Module PricingPageFacts.
Import Pricing.

Section Handlers.
Variable parseInt : string -> float.
Variable parseFloat : string -> float.

(** X19. Adding a product on the pricing page: without a selected RFP
    nothing is stored by either form and the page shows no rows and the
    totals 0; with an RFP selected and the three product fields filled,
    the row is added for the selected RFP, after the rows shown, with the
    quantity [parseInt] and the price [parseFloat] read, the material
    total shown rises by exactly their binary64 product, the test rows and
    the test total stay, and the grand total shown is the new material
    total plus the test total. *)
Theorem handleAddProduct_effect (now : string) (clock : Clock.t) (form : Form)
    (st : Stores) :
  (selectedRFPId form = EmptyString ->
   handleAddProduct parseInt parseFloat now clock form st =
     (st, form, [ToastError "Please select an RFP first"])
   /\ handleAddTest parseInt parseFloat now clock form st =
        (st, form, [ToastError "Please select an RFP first"])
   /\ products form st = [] /\ tests form st = []
   /\ grandTotal form st = 0%float)
  /\ (selectedRFPId form <> EmptyString -> oemSku form <> EmptyString ->
      prodQty form <> EmptyString -> unitPrice form <> EmptyString ->
      products (snd (fst (handleAddProduct parseInt parseFloat now clock form st)))
               (fst (fst (handleAddProduct parseInt parseFloat now clock form st))) =
        products form st ++
        [ProductRow.mk now (selectedRFPId form) (oemSku form)
           (parseInt (prodQty form)) (parseFloat (unitPrice form))]
      /\ totalMaterial (snd (fst (handleAddProduct parseInt parseFloat now clock form st)))
                       (fst (fst (handleAddProduct parseInt parseFloat now clock form st))) =
           PrimFloat.add (totalMaterial form st)
             (PrimFloat.mul (parseInt (prodQty form)) (parseFloat (unitPrice form)))
      /\ tests (snd (fst (handleAddProduct parseInt parseFloat now clock form st)))
               (fst (fst (handleAddProduct parseInt parseFloat now clock form st))) =
           tests form st
      /\ totalTest (snd (fst (handleAddProduct parseInt parseFloat now clock form st)))
                   (fst (fst (handleAddProduct parseInt parseFloat now clock form st))) =
           totalTest form st
      /\ grandTotal (snd (fst (handleAddProduct parseInt parseFloat now clock form st)))
                    (fst (fst (handleAddProduct parseInt parseFloat now clock form st))) =
           PrimFloat.add
             (PrimFloat.add (totalMaterial form st)
                (PrimFloat.mul (parseInt (prodQty form)) (parseFloat (unitPrice form))))
             (totalTest form st)).
Proof.
  split.
  - intros Hs. unfold handleAddProduct, handleAddTest, products, tests, grandTotal.
    rewrite Hs. simpl. repeat split.
  - intros Hs Ho Hq Hu. apply String.eqb_neq in Hs, Ho, Hq, Hu.
    unfold handleAddProduct, products, tests, totalMaterial, totalTest, grandTotal.
    rewrite Hs, Ho, Hq, Hu. cbn [orb fst snd selectedRFPId pricing]. rewrite Hs.
    assert (Ep : PricingContext.getProductsByRFP
                   (PricingContext.addProduct now
                      (ProductRow.mk EmptyString (selectedRFPId form) (oemSku form)
                         (parseInt (prodQty form)) (parseFloat (unitPrice form)))
                      (pricing st)) (selectedRFPId form) =
                 PricingContext.getProductsByRFP (pricing st) (selectedRFPId form) ++
                 [ProductRow.mk now (selectedRFPId form) (oemSku form)
                    (parseInt (prodQty form)) (parseFloat (unitPrice form))]).
    { rewrite PricingFacts.getProductsByRFP_addProduct. simpl.
      rewrite String.eqb_refl. reflexivity. }
    assert (Em : PricingContext.getTotalMaterialCost
                   (PricingContext.addProduct now
                      (ProductRow.mk EmptyString (selectedRFPId form) (oemSku form)
                         (parseInt (prodQty form)) (parseFloat (unitPrice form)))
                      (pricing st)) (selectedRFPId form) =
                 PrimFloat.add
                   (PricingContext.getTotalMaterialCost (pricing st) (selectedRFPId form))
                   (PrimFloat.mul (parseInt (prodQty form))
                      (parseFloat (unitPrice form)))).
    { unfold PricingContext.getTotalMaterialCost at 1.
      rewrite Ep, fold_left_app. reflexivity. }
    split; [exact Ep | split; [exact Em | split; [reflexivity | split; [reflexivity |]]]].
    unfold PricingContext.getGrandTotal. rewrite Em. reflexivity.
Qed.

End Handlers.
End PricingPageFacts.

Module WorkflowHandlerFacts.
Import WorkflowHandlers.

Section History.
Variable JSON_parse : string -> option JSValue.
Variable JSON_stringify : JSValue -> string.
Variable code_points : string -> list string.

(** X20. The result history in the browser storage: when the stored
    history is an array (or nothing is stored), a save stores the new
    entry in first place followed by the 49 first of the stored ones, so
    at most 50 entries, latest first; when the stored text does not parse
    or parses to something that cannot be spread ([null], a boolean, a
    number, an object), the storage is left as it was. *)
Theorem history_keeps_the_fifty_latest (now iso pdfName : string) (response : JSValue)
    (stored : option string) :
  (forall old,
      existing JSON_parse stored = Some (JArray old) ->
      saveResultToHistory JSON_parse JSON_stringify code_points
        now iso pdfName response stored =
        Some (JSON_stringify
                (JArray (entry now iso pdfName response :: firstn 49 old)))
      /\ length (entry now iso pdfName response :: firstn 49 old) =
           Nat.min 50 (S (length old)))
  /\ (existing JSON_parse stored = None ->
      saveResultToHistory JSON_parse JSON_stringify code_points
        now iso pdfName response stored = stored)
  /\ (forall value,
        existing JSON_parse stored = Some value ->
        match value with JArray _ | JString _ => False | _ => True end ->
        saveResultToHistory JSON_parse JSON_stringify code_points
          now iso pdfName response stored = stored)
  /\ (stored = None ->
      saveResultToHistory JSON_parse JSON_stringify code_points
        now iso pdfName response stored =
        Some (JSON_stringify (JArray [entry now iso pdfName response]))).
Proof.
  unfold saveResultToHistory, updated. split; [| split; [| split]].
  - intros old He. rewrite He. split; [reflexivity |].
    cbn [length]. rewrite length_firstn. lia.
  - intros ->. reflexivity.
  - intros value -> Hv. destruct value; simpl; try reflexivity; contradiction.
  - intros ->. reflexivity.
Qed.

End History.


End WorkflowHandlerFacts.

Module NewRFPFacts.

(** X22. Creating an RFP from the form and opening its detail page: with
    the four text fields filled and an id no RFP has yet, the detail page
    of that id shows the new RFP, with the form's values, no line items,
    no requirements and both ready flags off; one activity is logged and
    the form is reset.  With an id some RFP already has, the detail page
    keeps showing that older RFP. *)
Theorem created_rfp_is_shown (id : string) (clock : Clock.t) (form : RFPs.Form)
    (st : Stores.t) :
  RFPs.rfpId form <> EmptyString -> RFPs.title form <> EmptyString ->
  RFPs.client form <> EmptyString -> RFPs.dueDate form <> EmptyString ->
  (RFPContext.getRFPById id (Stores.rfps st) = None ->
   RFPDetail.render id
     (Stores.rfps (fst (fst (RFPs.handleSubmit id clock form st)))) =
     RFPDetail.Detail
       (RFP.mk id (RFPs.rfpId form) (RFPs.title form) (RFPs.client form)
               (RFPs.dueDate form) (RFPs.status form) [] [] false false))
  /\ (forall older,
        RFPContext.getRFPById id (Stores.rfps st) = Some older ->
        RFPDetail.render id
          (Stores.rfps (fst (fst (RFPs.handleSubmit id clock form st)))) =
          RFPDetail.Detail older)
  /\ length (Stores.activities (fst (fst (RFPs.handleSubmit id clock form st)))) =
       S (length (Stores.activities st))
  /\ snd (fst (RFPs.handleSubmit id clock form st)) = RFPs.blank.
Proof.
  intros Hr Ht Hc Hd. apply String.eqb_neq in Hr, Ht, Hc, Hd.
  unfold RFPs.handleSubmit. rewrite Hr, Ht, Hc, Hd. cbn [orb fst snd Stores.rfps].
  unfold RFPDetail.render, RFPContext.getRFPById, RFPContext.addRFP.
  rewrite RFPStoreFacts.find_app. cbn [List.find RFP.id]. rewrite String.eqb_refl.
  split; [| split; [| split]].
  - intros ->. reflexivity.
  - intros older ->. reflexivity.
  - reflexivity.
  - reflexivity.
Qed.

End NewRFPFacts.

(** * The properties above on the scenarios *)

Module PageWitnesses.
Import Scenarios PageScenarios.

Lemma adding_rows_leaves_other_rfps_witness :
  "RFP-1" <> "RFP-2"
  /\ PricingContext.getGrandTotal
       (PricingContext.addProduct "5"
          (ProductRow.mk EmptyString "RFP-1" "SKU-004" 1%float 40%float) cents)
       "RFP-2" =
     PricingContext.getGrandTotal cents "RFP-2".
Proof.
  assert (Hne : "RFP-1" <> "RFP-2") by discriminate.
  split; [exact Hne |].
  exact (proj2 (proj2 (proj2 (proj2 (proj1
           (PricingStoreFacts.adding_rows_leaves_other_rfps "5"
              (ProductRow.mk EmptyString "RFP-1" "SKU-004" 1%float 40%float)
              (TestRow.mk EmptyString "RFP-1" "Voltage Withstand Test" 1%float 1%float)
              cents "RFP-2" Hne Hne)))))).
Defined.

Lemma writes_for_unknown_id_change_nothing_witness :
  RFPContext.getRFPById "3" [rfp_a; rfp_b] = None
  /\ RFPContext.addRequirement "9" "3" "Type test" [rfp_a; rfp_b] = [rfp_a; rfp_b].
Proof.
  assert (Hn : RFPContext.getRFPById "3" [rfp_a; rfp_b] = None) by reflexivity.
  split; [exact Hn |].
  exact (proj2 (proj2 (RFPStoreFacts.writes_for_unknown_id_change_nothing
                         "3" [rfp_a; rfp_b] Hn)) "9" "Type test").
Defined.

Lemma getRFPById_after_updateRFP_witness :
  RFPContext.getRFPById "2" [rfp_a; rfp_b] = Some rfp_b
  /\ option_map RFP.status
       (RFPContext.getRFPById "2"
          (RFPContext.updateRFP "2"
             (PartialRFP.mk None None None None None (Some Submitted) None None None None)
             [rfp_a; rfp_b])) = Some Submitted.
Proof.
  assert (Hf : RFPContext.getRFPById "2" [rfp_a; rfp_b] = Some rfp_b) by reflexivity.
  split; [exact Hf |].
  rewrite (RFPStoreFacts.getRFPById_after_updateRFP "2"
             (PartialRFP.mk None None None None None (Some Submitted) None None None None)
             [rfp_a; rfp_b] rfp_b Hf (or_introl eq_refl)).
  reflexivity.
Defined.

Lemma getRFPById_after_adding_witness :
  RFPContext.getRFPById "1" [rfp_a; rfp_b] = Some rfp_a
  /\ option_map (fun r => length (RFP.requirements r))
       (RFPContext.getRFPById "1"
          (RFPContext.addRequirement "9" "1" "Type test" [rfp_a; rfp_b])) = Some 2.
Proof.
  assert (Hf : RFPContext.getRFPById "1" [rfp_a; rfp_b] = Some rfp_a) by reflexivity.
  split; [exact Hf |].
  rewrite (proj2 (RFPStoreFacts.getRFPById_after_adding "1" [rfp_a; rfp_b] rfp_a Hf)
             "9" "Type test").
  reflexivity.
Defined.

Lemma login_accepts_any_password_witness :
  "asha@example.com" <> EmptyString
  /\ "secret" <> EmptyString
  /\ exists name,
       Login.handleSubmit "asha@example.com" "secret" AuthContext.initial =
         (AuthContext.mkState true (Some (User.mk name "asha@example.com" "User")),
          Effects.mk [ToastSuccess "Successfully logged in!"] (Some App.DashboardPath))
       /\ ~ In "@"%char (list_ascii_of_string name).
Proof.
  assert (He : "asha@example.com" <> EmptyString) by discriminate.
  assert (Hp : "secret" <> EmptyString) by discriminate.
  split; [exact He | split; [exact Hp |]].
  destruct (AuthFacts.login_accepts_any_password "asha@example.com" "secret"
              AuthContext.initial He Hp) as (name & Hr & Hn & _).
  exists name. split; assumption.
Defined.

Lemma forms_validate_before_calling_witness :
  AuthContext.isLoggedIn AuthContext.initial = false
  /\ AuthContext.isLoggedIn
       (fst (Register.handleSubmit "Asha" "asha@example.com" "secret" "secret" "Sales"
               AuthContext.initial)) = true
  /\ fst (Register.handleSubmit "Asha" "asha@example.com" "secret" "other" "Sales"
            AuthContext.initial) = AuthContext.initial.
Proof.
  assert (Ho : AuthContext.isLoggedIn AuthContext.initial = false) by reflexivity.
  split; [exact Ho | split].
  - apply (proj1 (AuthFacts.forms_validate_before_calling
                    "Asha" "asha@example.com" "secret" "secret" "Sales"
                    AuthContext.initial Ho)).
    repeat split; discriminate.
  - apply (proj1 (proj2 (AuthFacts.forms_validate_before_calling
                           "Asha" "asha@example.com" "secret" "other" "Sales"
                           AuthContext.initial Ho))).
    reflexivity.
Defined.

Lemma run_agent_then_timeout_witness :
  List.find (fun a => String.eqb (Agent.id a) "1") (Agents.agents agents_page) =
    Some (Agent.mk "1" "Sales Agent"
            "Analyzes RFP documents and extracts key requirements, deadlines, and scope information."
            Idle)
  /\ exists timer,
       snd (Agents.handleRunAgent noon "1" agents_page) = Some timer
       /\ length (Agents.activities
                    (fst (Agents.timeout later timer
                            (fst (fst (Agents.handleRunAgent noon "1" agents_page)))))) = 1.
Proof.
  assert (Hf : List.find (fun a => String.eqb (Agent.id a) "1")
                 (Agents.agents agents_page) =
               Some (Agent.mk "1" "Sales Agent"
                       "Analyzes RFP documents and extracts key requirements, deadlines, and scope information."
                       Idle)) by reflexivity.
  split; [exact Hf |].
  destruct (AgentsFacts.run_agent_then_timeout noon later "1" agents_page _ Hf)
    as (timer & Hc & Ht).
  exists timer. split.
  - rewrite Hc. reflexivity.
  - rewrite Ht. reflexivity.
Defined.

Lemma overlapping_runs_leave_first_running_witness :
  "1" <> "2"
  /\ List.Forall
       (fun x =>
          (Agent.id x = "1" -> Agent.status x = Running /\ Agents.runDisabled x = true)
          /\ (Agent.id x = "2" -> Agent.status x = Completed))
       (Agents.withStatus "2" Completed (Agents.withStatus "1" Running Agents.initial)).
Proof.
  assert (Hne : "1" <> "2") by discriminate.
  split; [exact Hne |].
  destruct (AgentsFacts.overlapping_runs_leave_first_running noon noon later later
              "1" "2" agents_page _ _ Hne eq_refl eq_refl)
    as (timer1 & timer2 & _ & _ & _ & Hall).
  exact Hall.
Defined.

Lemma handleAddLineItem_effect_witness :
  RFPContext.getRFPById (RFP.id rfp_a) (Stores.rfps two_rfps) = Some rfp_a
  /\ option_map (fun r => length (RFP.lineItems r))
       (RFPContext.getRFPById (RFP.id rfp_a)
          (Stores.rfps
             (fst (fst (RFPDetailHandlers.handleAddLineItem (fun _ => 5%float)
                          "9" noon rfp_a line_item_form two_rfps))))) = Some 1.
Proof.
  assert (Hf : RFPContext.getRFPById (RFP.id rfp_a) (Stores.rfps two_rfps) = Some rfp_a)
    by reflexivity.
  split; [exact Hf |].
  destruct (proj2 (RFPPageFacts.handleAddLineItem_effect (fun _ => 5%float)
                     "9" noon rfp_a line_item_form two_rfps Hf))
    as (Hr & _).
  - discriminate.
  - discriminate.
  - discriminate.
  - rewrite Hr. reflexivity.
Defined.

Lemma handleAgentAction_only_sets_flags_witness :
  RFPContext.getRFPById (RFP.id rfp_a) (Stores.rfps two_rfps) = Some rfp_a
  /\ RFPDetailHandlers.handleAgentAction noon rfp_a "sales" two_rfps = (two_rfps, []).
Proof.
  assert (Hf : RFPContext.getRFPById (RFP.id rfp_a) (Stores.rfps two_rfps) = Some rfp_a)
    by reflexivity.
  split; [exact Hf |].
  apply (proj1 (proj2 (RFPPageFacts.handleAgentAction_only_sets_flags
                         noon rfp_a "sales" two_rfps Hf))); discriminate.
Defined.

Lemma handleAddProduct_effect_witness :
  Pricing.selectedRFPId product_form <> EmptyString
  /\ Pricing.grandTotal
       (snd (fst (Pricing.handleAddProduct (fun _ => 100%float) (fun _ => 1500%float)
                    "7" noon product_form empty_pricing)))
       (fst (fst (Pricing.handleAddProduct (fun _ => 100%float) (fun _ => 1500%float)
                    "7" noon product_form empty_pricing))) = 150000%float.
Proof.
  assert (Hs : Pricing.selectedRFPId product_form <> EmptyString) by discriminate.
  split; [exact Hs |].
  destruct (proj2 (PricingPageFacts.handleAddProduct_effect
                     (fun _ => 100%float) (fun _ => 1500%float)
                     "7" noon product_form empty_pricing) Hs)
    as (_ & _ & _ & _ & Hg).
  - discriminate.
  - discriminate.
  - discriminate.
  - rewrite Hg. reflexivity.
Defined.

Lemma history_keeps_the_fifty_latest_witness :
  WorkflowHandlers.existing (fun _ => None) None = Some (JArray [])
  /\ WorkflowHandlers.saveResultToHistory (fun _ => None) (fun _ => "[...]")
       (fun _ => []) "1735732800000" "2025-01-01T12:00:00.000Z" "AUTO-DISCOVERY"
       JNull None = Some "[...]".
Proof.
  assert (He : WorkflowHandlers.existing (fun _ => None) None = Some (JArray []))
    by reflexivity.
  split; [exact He |].
  rewrite (proj1 (proj1 (WorkflowHandlerFacts.history_keeps_the_fifty_latest
                           (fun _ => None) (fun _ => "[...]") (fun _ => [])
                           "1735732800000" "2025-01-01T12:00:00.000Z" "AUTO-DISCOVERY"
                           JNull None) [] He)).
  reflexivity.
Defined.


Lemma created_rfp_is_shown_witness :
  RFPs.rfpId new_rfp_form <> EmptyString
  /\ RFPContext.getRFPById "3" (Stores.rfps two_rfps) = None
  /\ RFPDetail.render "3"
       (Stores.rfps (fst (fst (RFPs.handleSubmit "3" noon new_rfp_form two_rfps)))) =
     RFPDetail.Detail
       (RFP.mk "3" "RFP-2025-003" "HT cables" "EPC" "2025-04-01" Open [] [] false false).
Proof.
  assert (Hr : RFPs.rfpId new_rfp_form <> EmptyString) by discriminate.
  assert (Hn : RFPContext.getRFPById "3" (Stores.rfps two_rfps) = None) by reflexivity.
  split; [exact Hr | split; [exact Hn |]].
  apply (proj1 (NewRFPFacts.created_rfp_is_shown "3" noon new_rfp_form two_rfps Hr
                  ltac:(discriminate) ltac:(discriminate) ltac:(discriminate))).
  exact Hn.
Defined.

End PageWitnesses.
